(** * VetAssist WhatsApp automation: conversation engine

    A shallow embedding of the engine described by the Python listings of
    [docs/WHATSAPP_AUTOMATION_ARCHITECTURE.md] (state table, scheduling logic,
    emergency escalation, follow-up scheduler), and the properties proved of
    it.  Part I holds the definitions, in the order of the document;
    Part II holds the lemmas and theorems. *)

From Stdlib Require Import String Ascii ZArith NArith List Lia Bool Sorted.
From Equations Require Import Equations.
From ExtLib Require Import Structures.Monad.
Import ListNotations.
Import MonadNotation.

Local Open Scope monad_scope.
Local Open Scope list_scope.
Local Open Scope string_scope.

(* ===================================================================== *)
(** * Part I: definitions *)
(* ===================================================================== *)

(** ** Text

    A Python [str] is kept as its UTF-8 bytes (a Rocq [string]); the
    keyword tables of the document contain accented letters, each of which
    is the two-byte sequence [0xC3 b]. *)

Module Text.

(** [needle in hay]: Python's substring test. *)
Fixpoint contains (needle hay : string) : bool :=
  if String.prefix needle hay then true
  else match hay with
       | EmptyString => false
       | String _ rest => contains needle rest
       end.

Definition is_ascii_upper (c : ascii) : bool :=
  let n := nat_of_ascii c in (65 <=? n)%nat && (n <=? 90)%nat.

(** Continuation byte of an upper-case letter of the Latin-1 supplement
    (U+00C0 .. U+00DE, the multiplication sign U+00D7 left out). *)
Definition is_latin1_upper_tail (c : ascii) : bool :=
  let n := nat_of_ascii c in
  (128 <=? n)%nat && (n <=? 158)%nat && negb (n =? 151)%nat.

Definition shift32 (c : ascii) : ascii := ascii_of_nat (nat_of_ascii c + 32).

Definition latin1_lead : ascii := ascii_of_nat 195.

(** [str.lower()] on the Basic Latin and Latin-1 Supplement blocks, which
    hold the Spanish alphabet; every other code point is left as it is. *)
Fixpoint lower (s : string) : string :=
  match s with
  | EmptyString => EmptyString
  | String c rest =>
      if Ascii.eqb c latin1_lead then
        match rest with
        | EmptyString => String c EmptyString
        | String d rest' =>
            String c (String (if is_latin1_upper_tail d then shift32 d else d)
                             (lower rest'))
        end
      else String (if is_ascii_upper c then shift32 c else c) (lower rest)
  end.

(** White space removed by [str.strip()], the characters of which
    [str.isspace()] holds.  In one byte: U+0009 to U+000D, U+001C to U+001F
    and the space. *)
Definition is_space (c : ascii) : bool :=
  let n := nat_of_ascii c in
  ((9 <=? n)%nat && (n <=? 13)%nat) || ((28 <=? n)%nat && (n <=? 32)%nat).

(** In two bytes: U+0085 and U+00A0, after the lead byte [0xC2]. *)
Definition is_space2 (c d : ascii) : bool :=
  (nat_of_ascii c =? 194)%nat
  && ((nat_of_ascii d =? 133)%nat || (nat_of_ascii d =? 160)%nat).

(** In three bytes: U+1680, U+2000 to U+200A, U+2028, U+2029, U+202F,
    U+205F and U+3000. *)
Definition is_space3 (c d e : ascii) : bool :=
  let x := nat_of_ascii c in
  let y := nat_of_ascii d in
  let z := nat_of_ascii e in
  ((x =? 225) && (y =? 154) && (z =? 128))%nat
  || ((x =? 226) && (y =? 128)
      && (((128 <=? z) && (z <=? 138)) || (z =? 168) || (z =? 169)
          || (z =? 175)))%nat
  || ((x =? 226) && (y =? 129) && (z =? 159))%nat
  || ((x =? 227) && (y =? 128) && (z =? 128))%nat.

Fixpoint lstrip (s : string) : string :=
  match s with
  | EmptyString => EmptyString
  | String c rest =>
      if is_space c then lstrip rest
      else
        match rest with
        | EmptyString => s
        | String d rest2 =>
            if is_space2 c d then lstrip rest2
            else
              match rest2 with
              | EmptyString => s
              | String e rest3 =>
                  if is_space3 c d e then lstrip rest3 else s
              end
        end
  end.

(** The text ends where nothing but white space follows. *)
Fixpoint rstrip (s : string) : string :=
  match s with
  | EmptyString => EmptyString
  | String c rest =>
      match lstrip s with
      | EmptyString => EmptyString
      | _ => String c (rstrip rest)
      end
  end.

Definition strip (s : string) : string := rstrip (lstrip s).

(** [term] occurs in [text] when case is ignored. *)
Definition contains_ignoring_case (term text : string) : bool :=
  contains (lower term) (lower text).

End Text.

(** ** Time

    A naive [datetime] is the number of microseconds since the epoch, a
    [timedelta] a number of microseconds, a [date] a number of days since
    the epoch and a [time] the microseconds since midnight. *)

Module Time.

Definition datetime := Z.
Definition timedelta := Z.
Definition date := Z.
Definition time := Z.

Bind Scope Z_scope with datetime timedelta date time.

Definition minutes (n : Z) : timedelta := (n * 60000000)%Z.
Definition hours (n : Z) : timedelta := (n * 3600000000)%Z.
Definition day : timedelta := 86400000000%Z.

(** [datetime.combine(date, time)]. *)
Definition combine (d : date) (t : time) : datetime := (d * day + t)%Z.

(** [date.weekday()]: Monday is 0; day 0 of the epoch was a Thursday. *)
Definition weekday (d : date) : Z := ((d + 3) mod 7)%Z.

End Time.
Import Time.

(** ** Section 2.3: the state table *)

Inductive State : Type :=
| IDLE | GREETING | INTENT_DETECTION | ASK_REASON | OFFER_SLOTS
| AWAIT_SELECTION | CONFIRM_BOOKING | CONFIRM_EMERGENCY | ESCALATE
| COLLECT_STATUS | COMPLETED | REMINDER | CLOSED.

Definition state_eqb (a b : State) : bool :=
  match a, b with
  | IDLE, IDLE | GREETING, GREETING | INTENT_DETECTION, INTENT_DETECTION
  | ASK_REASON, ASK_REASON | OFFER_SLOTS, OFFER_SLOTS
  | AWAIT_SELECTION, AWAIT_SELECTION | CONFIRM_BOOKING, CONFIRM_BOOKING
  | CONFIRM_EMERGENCY, CONFIRM_EMERGENCY | ESCALATE, ESCALATE
  | COLLECT_STATUS, COLLECT_STATUS | COMPLETED, COMPLETED
  | REMINDER, REMINDER | CLOSED, CLOSED => true
  | _, _ => false
  end.

Definition STATE_TRANSITIONS (s : State) : list State :=
  match s with
  | IDLE => [GREETING]
  | GREETING => [INTENT_DETECTION; REMINDER]
  | INTENT_DETECTION =>
      [ASK_REASON; CONFIRM_EMERGENCY; COLLECT_STATUS; GREETING; REMINDER]
  | ASK_REASON => [OFFER_SLOTS; CONFIRM_EMERGENCY; REMINDER]
  | OFFER_SLOTS => [AWAIT_SELECTION; ASK_REASON; REMINDER]
  | AWAIT_SELECTION => [CONFIRM_BOOKING; OFFER_SLOTS; REMINDER]
  | CONFIRM_BOOKING => [COMPLETED; OFFER_SLOTS; REMINDER]
  | CONFIRM_EMERGENCY => [ESCALATE; ASK_REASON; CLOSED]
  | ESCALATE => [COMPLETED]
  | COLLECT_STATUS => [COMPLETED; ESCALATE; REMINDER]
  | COMPLETED => [CLOSED]
  | REMINDER => [INTENT_DETECTION; CLOSED]
  | CLOSED => [GREETING]
  end.

(** Section 2.2, column Timeout: the delay set on entering a state, [None]
    where the table has a dash. *)
Definition STATE_TIMEOUT (s : State) : option timedelta :=
  match s with
  | GREETING => Some (minutes 5)
  | INTENT_DETECTION => Some (minutes 10)
  | ASK_REASON | OFFER_SLOTS | AWAIT_SELECTION => Some (minutes 15)
  | CONFIRM_BOOKING => Some (minutes 10)
  | CONFIRM_EMERGENCY => Some (minutes 5)
  | COLLECT_STATUS | REMINDER => Some (hours 24)
  | IDLE | ESCALATE | COMPLETED | CLOSED => None
  end.

(** ** The data model (sections 4 to 6 and 8 of the document)

    Identifiers are UUIDs; the [str] identifiers of the listings are their
    text.  Status, source and priority are the strings of the listings. *)

Definition uuid := N.
Definition phone := string.

Bind Scope N_scope with uuid.

Module TimeSlot.
Record t := mk { start : datetime; end_ : datetime }.
End TimeSlot.

Module BusinessHours.
Record t := mk { is_open : bool; open_time : time; close_time : time }.
End BusinessHours.

Module Clinic.
Record t := mk {
  id : uuid;
  name : string;
  (* dict: weekday -> hours *)
  business_hours : Z -> option BusinessHours.t }.
End Clinic.

Module EscalationContact.
Record t := mk { clinic_id : uuid; phone : phone }.
End EscalationContact.

Module Conversation.
Record t := mk {
  id : uuid;
  clinic_id : uuid;
  client_phone : phone;
  channel : string;
  type : string;
  state : State;
  state_data : list (string * string);
  last_state_change : option datetime;
  timeout_at : option datetime;
  extracted_client_name : option string;
  extracted_pet_name : option string;
  extracted_pet_species : option string;
  emergency_description : string;
  emergency_keywords : list string;
  emergency_id : option uuid;
  follow_up_id : option uuid }.

Definition set_state (s : State) (c : t) : t :=
  mk (id c) (clinic_id c) (client_phone c) (channel c) (type c) s
     (state_data c) (last_state_change c) (timeout_at c)
     (extracted_client_name c) (extracted_pet_name c)
     (extracted_pet_species c) (emergency_description c)
     (emergency_keywords c) (emergency_id c) (follow_up_id c).

Definition set_emergency_id (e : option uuid) (c : t) : t :=
  mk (id c) (clinic_id c) (client_phone c) (channel c) (type c) (state c)
     (state_data c) (last_state_change c) (timeout_at c)
     (extracted_client_name c) (extracted_pet_name c)
     (extracted_pet_species c) (emergency_description c)
     (emergency_keywords c) e (follow_up_id c).

Definition set_deadline (changed deadline : option datetime) (c : t) : t :=
  mk (id c) (clinic_id c) (client_phone c) (channel c) (type c) (state c)
     (state_data c) changed deadline
     (extracted_client_name c) (extracted_pet_name c)
     (extracted_pet_species c) (emergency_description c)
     (emergency_keywords c) (emergency_id c) (follow_up_id c).
End Conversation.

Module Client.
Record t := mk {
  id : uuid;
  clinic_id : uuid;
  phone : phone;
  name : option string;
  false_emergency_count : Z }.

Definition set_false_emergency_count (n : Z) (c : t) : t :=
  mk (id c) (clinic_id c) (phone c) (name c) n.
End Client.

Module Pet.
Record t := mk {
  id : uuid;
  client_id : uuid;
  name : string;
  species : option string }.
End Pet.

Module Appointment.
Record t := mk {
  id : uuid;
  clinic_id : uuid;
  client_id : option uuid;
  pet_id : option uuid;
  start_time : datetime;
  end_time : datetime;
  duration_minutes : Z;
  reason : string;
  status : string;
  source : string;
  conversation_id : option uuid;
  priority : string;
  emergency_id : option uuid;
  created_at : datetime }.
End Appointment.

Module EmergencyEvent.
Record t := mk {
  id : uuid;
  clinic_id : uuid;
  conversation_id : uuid;
  client_phone : phone;
  description : string;
  keywords_detected : list string;
  status : string;
  created_at : datetime }.
End EmergencyEvent.

Module EmergencyAlert.
Record t := mk {
  emergency_id : uuid;
  contact_phone : phone;
  sent_at : datetime;
  status : string }.
End EmergencyAlert.

Module FollowUp.
Record t := mk {
  id : uuid;
  appointment_id : uuid;
  clinic_id : uuid;
  client_id : option uuid;
  pet_id : option uuid;
  message_template : string;
  escalation_keywords : list string;
  scheduled_at : datetime;
  status : string;
  sequence_number : Z;
  created_at : datetime }.
End FollowUp.

Module ActionLog.
Record t := mk {
  conversation_id : uuid;
  action : string;
  appointment_id : uuid }.
End ActionLog.

(** ** Exceptions *)

Inductive exn : Type :=
| InvalidTransition
| SlotNoLongerAvailable
| AttributeError      (* attribute read on [None] *)
| IndexError          (* list index out of range *)
| DeliveryError.      (* the message gateway refused a message *)

(** ** The conversation state machine *)

Module StateMachine.

Inductive EventKind : Type :=
| inbound_message | timeout_fired | completion_signal.

(** An event, with the destination state the handling flow asks for. *)
Record Event := mkEvent { kind : EventKind; destination : State }.

Definition allowed (src dst : State) : bool :=
  existsb (state_eqb dst) (STATE_TRANSITIONS src).

(** Modelled from the spec: the [transition] function is not among the
    listings of the document, which give its table only.  Spec 4.1: only
    the transitions of the adjacency table are permitted, any other fails
    with [InvalidTransition] and leaves the conversation unchanged; every
    state entry sets the deadline of the per-state timeout table, and a
    state without a timeout (ESCALATE, COMPLETED, CLOSED) clears it. *)
Definition transition (now : datetime) (c : Conversation.t) (ev : Event)
  : (exn + State) * Conversation.t :=
  let dst := destination ev in
  if allowed (Conversation.state c) dst then
    (inr dst,
     Conversation.set_deadline
       (Some now) (option_map (Z.add now) (STATE_TIMEOUT dst))
       (Conversation.set_state dst c))
  else (inl InvalidTransition, c).

End StateMachine.

(** ** The store, the session and the outside world

    [db] of the listings is a unit-of-work session over the relational
    store: [db.add] and attribute updates change the session's view,
    [db.commit()] makes the view durable.  A process that dies keeps the
    durable store and loses the rest. *)

Module Db.
Record t := mk {
  clinics : list Clinic.t;
  escalation_contacts : list EscalationContact.t;
  conversations : list Conversation.t;
  clients : list Client.t;
  pets : list Pet.t;
  appointments : list Appointment.t;
  emergency_events : list EmergencyEvent.t;
  follow_ups : list FollowUp.t;
  actions : list ActionLog.t }.

Definition empty : t := mk [] [] [] [] [] [] [] [] [].

Definition with_conversations (f : list Conversation.t -> list Conversation.t)
  (d : t) : t :=
  mk (clinics d) (escalation_contacts d) (f (conversations d)) (clients d)
     (pets d) (appointments d) (emergency_events d) (follow_ups d) (actions d).
Definition with_clients (f : list Client.t -> list Client.t) (d : t) : t :=
  mk (clinics d) (escalation_contacts d) (conversations d) (f (clients d))
     (pets d) (appointments d) (emergency_events d) (follow_ups d) (actions d).
Definition with_pets (f : list Pet.t -> list Pet.t) (d : t) : t :=
  mk (clinics d) (escalation_contacts d) (conversations d) (clients d)
     (f (pets d)) (appointments d) (emergency_events d) (follow_ups d)
     (actions d).
Definition with_appointments (f : list Appointment.t -> list Appointment.t)
  (d : t) : t :=
  mk (clinics d) (escalation_contacts d) (conversations d) (clients d)
     (pets d) (f (appointments d)) (emergency_events d) (follow_ups d)
     (actions d).
Definition with_emergency_events
  (f : list EmergencyEvent.t -> list EmergencyEvent.t) (d : t) : t :=
  mk (clinics d) (escalation_contacts d) (conversations d) (clients d)
     (pets d) (appointments d) (f (emergency_events d)) (follow_ups d)
     (actions d).
Definition with_follow_ups (f : list FollowUp.t -> list FollowUp.t)
  (d : t) : t :=
  mk (clinics d) (escalation_contacts d) (conversations d) (clients d)
     (pets d) (appointments d) (emergency_events d) (f (follow_ups d))
     (actions d).
Definition with_actions (f : list ActionLog.t -> list ActionLog.t)
  (d : t) : t :=
  mk (clinics d) (escalation_contacts d) (conversations d) (clients d)
     (pets d) (appointments d) (emergency_events d) (follow_ups d)
     (f (actions d)).
End Db.

Module World.
Record t := mk {
  store : Db.t;                       (* committed rows *)
  session : Db.t;                     (* the session's view *)
  outbox : list (phone * string);     (* messages handed to the gateway *)
  reachable : phone -> bool;          (* does the gateway accept a send *)
  now : datetime;                     (* the clock read by utcnow() *)
  next_uuid : uuid }.                 (* the supply drawn by uuid4() *)

Definition with_session (f : Db.t -> Db.t) (w : t) : t :=
  mk (store w) (f (session w)) (outbox w) (reachable w) (now w) (next_uuid w).

(** A process start: the session sees the committed rows and nothing else. *)
Definition fresh (d : Db.t) (reach : phone -> bool) (clock : datetime)
  (supply : uuid) : t :=
  mk d d [] reach clock supply.

(** What survives the death of the process. *)
Definition crash (w : t) : t :=
  mk (store w) (store w) (outbox w) (reachable w) (now w) (next_uuid w).

(** [w'] has the rows, the clock and the identifier supply of [w]; the
    outbox may differ. *)
Definition same_data (w w' : t) : Prop :=
  store w' = store w /\ session w' = session w
  /\ now w' = now w /\ next_uuid w' = next_uuid w.
End World.

(** Computations that read and write the world and may raise. *)
Definition M (A : Type) : Type := World.t -> (exn + A) * World.t.

Definition M_ret {A} (a : A) : M A := fun w => (inr a, w).

Definition M_bind {A B} (c : M A) (k : A -> M B) : M B :=
  fun w => match c w with
           | (inl e, w') => (inl e, w')
           | (inr a, w') => k a w'
           end.

#[global] Instance Monad_M : Monad M := {| ret := @M_ret; bind := @M_bind |}.

Definition raise {A} (e : exn) : M A := fun w => (inl e, w).

Definition gets {A} (f : World.t -> A) : M A := fun w => (inr (f w), w).

Definition update_session (f : Db.t -> Db.t) : M unit :=
  fun w => (inr tt, World.with_session f w).

(** Reading an attribute of a value that may be [None]. *)
Definition deref {A} (o : option A) : M A :=
  match o with Some a => M_ret a | None => raise AttributeError end.

Fixpoint for_each {A} (l : list A) (body : A -> M unit) : M unit :=
  match l with
  | [] => M_ret tt
  | x :: rest => M_bind (body x) (fun _ => for_each rest body)
  end.

Module db.
Definition commit : M unit :=
  fun w => (inr tt,
            World.mk (World.session w) (World.session w) (World.outbox w)
                     (World.reachable w) (World.now w) (World.next_uuid w)).

Definition add_client (c : Client.t) : M unit :=
  update_session (Db.with_clients (fun l => (l ++ [c])%list)).
Definition add_pet (p : Pet.t) : M unit :=
  update_session (Db.with_pets (fun l => (l ++ [p])%list)).
Definition add_appointment (a : Appointment.t) : M unit :=
  update_session (Db.with_appointments (fun l => (l ++ [a])%list)).
Definition add_emergency_event (e : EmergencyEvent.t) : M unit :=
  update_session (Db.with_emergency_events (fun l => (l ++ [e])%list)).
Definition add_follow_up (f : FollowUp.t) : M unit :=
  update_session (Db.with_follow_ups (fun l => (l ++ [f])%list)).
Definition add_action (a : ActionLog.t) : M unit :=
  update_session (Db.with_actions (fun l => (l ++ [a])%list)).

(** An attribute update on a loaded row: the session's copy of the row
    with that identifier is replaced. *)
Definition save_conversation (c : Conversation.t) : M unit :=
  update_session (Db.with_conversations
    (map (fun r => if N.eqb (Conversation.id r) (Conversation.id c)
                   then c else r))).
Definition save_client (c : Client.t) : M unit :=
  update_session (Db.with_clients
    (map (fun r => if N.eqb (Client.id r) (Client.id c) then c else r))).
End db.

(** [datetime.utcnow()] reads the clock of the world.  Nothing in the
    listings sets the clock, so the reads of one call agree; time passing
    between two calls is a change of [World.now] made from outside (see
    [Processor.at_time]). *)
Definition utcnow : M datetime := gets World.now.

Definition uuid4 : M uuid :=
  fun w => (inr (World.next_uuid w),
            World.mk (World.store w) (World.session w) (World.outbox w)
                     (World.reachable w) (World.now w)
                     (N.succ (World.next_uuid w))).

(** The repository reads below are called by the listings and not given.
    Spec 6 makes them reads through a repository interface; each answers
    from the session's view, and a lookup gives [None] when there is no
    such row. *)

(** Modelled from the spec: [get_clinic], the clinic with that identifier. *)
Definition get_clinic (clinic_id : uuid) : M (option Clinic.t) :=
  gets (fun w => find (fun c => N.eqb (Clinic.id c) clinic_id)
                      (Db.clinics (World.session w))).

(** Modelled from the spec: [get_conversation], the conversation with that
    identifier. *)
Definition get_conversation (conversation_id : uuid)
  : M (option Conversation.t) :=
  gets (fun w => find (fun c => N.eqb (Conversation.id c) conversation_id)
                      (Db.conversations (World.session w))).

(** Modelled from the spec: [get_client_by_phone], the client recorded for
    that contact address. *)
Definition get_client_by_phone (p : phone) : M (option Client.t) :=
  gets (fun w => find (fun c => String.eqb (Client.phone c) p)
                      (Db.clients (World.session w))).

(** Modelled from the spec: [get_appointment], the appointment with that
    identifier. *)
Definition get_appointment (appointment_id : uuid)
  : M (option Appointment.t) :=
  gets (fun w => find (fun a => N.eqb (Appointment.id a) appointment_id)
                      (Db.appointments (World.session w))).

(** Modelled from the spec: [get_escalation_contacts], the ordered
    escalation contact list of the organization (spec 4.4). *)
Definition get_escalation_contacts (clinic_id : uuid)
  : M (list EscalationContact.t) :=
  gets (fun w => filter
                   (fun c => N.eqb (EscalationContact.clinic_id c) clinic_id)
                   (Db.escalation_contacts (World.session w))).

(** ** Section 4.1: slot generation *)

(** The [while] loop of [get_available_slots]: candidate slots every 30
    minutes from [current], as long as a slot of the asked duration ends by
    [slot_end].  The measure counts the iterations left. *)
Equations? all_slots (current slot_end : datetime) (duration : Z)
  : list TimeSlot.t
  by wf (Z.to_nat ((slot_end - (current + minutes duration)) / minutes 30 + 1))
        lt :=
  all_slots current slot_end duration
    with Z_le_gt_dec (current + minutes duration)%Z slot_end => {
    | left _ :=
        TimeSlot.mk current (current + minutes duration)%Z
          :: all_slots (current + minutes 30)%Z slot_end duration;
    | right _ := [] }.
Proof.
  clear all_slots.
  set (d := minutes duration) in *; clearbody d.
  assert (H : (slot_end - (current + 1800000000 + d)
               = (slot_end - (current + d)) + (-1) * 1800000000)%Z) by lia.
  rewrite H, Z.div_add by lia.
  assert (0 <= (slot_end - (current + d)) / 1800000000)%Z
    by (apply Z.div_pos; lia).
  lia.
Qed.

(** [x in xs] for strings. *)
Definition str_in (x : string) (xs : list string) : bool :=
  existsb (String.eqb x) xs.

(** The overlap test of the filter: the appointment meets the slot widened
    by five minutes on each side. *)
Definition overlaps_buffered (slot : TimeSlot.t) (apt : Appointment.t) : bool :=
  let buffer_start := (TimeSlot.start slot - minutes 5)%Z in
  let buffer_end := (TimeSlot.end_ slot + minutes 5)%Z in
  (Appointment.start_time apt <? buffer_end)%Z
  && (Appointment.end_time apt >? buffer_start)%Z.

Definition has_conflict (slot : TimeSlot.t) (existing : list Appointment.t)
  : bool :=
  existsb (overlaps_buffered slot)
    (filter (fun apt => negb (str_in (Appointment.status apt) ["cancelled"]))
            existing).

(** Slots in order of time, earliest first, no two at the same time. *)
Definition earliest_first (slots : list TimeSlot.t) : Prop :=
  StronglySorted (fun a b => (TimeSlot.start a < TimeSlot.start b)%Z) slots.

(** The clinic has no open business hours on the weekday of [d]: the dict
    has no entry for it, or the entry is not open. *)
Definition closed_on (clinic : Clinic.t) (d : date) : bool :=
  match Clinic.business_hours clinic (weekday d) with
  | None => true
  | Some hours => negb (BusinessHours.is_open hours)
  end.

Section SlotGeneration.

(** The query behind [get_appointments_for_date(clinic_id, date)] is not in
    the listings; the slot generator is defined over any such read. *)
Variable get_appointments_for_date : Db.t -> uuid -> date -> list Appointment.t.

Definition get_available_slots (clinic_id : uuid) (date : date) (duration : Z)
  : M (list TimeSlot.t) :=
  found <- get_clinic clinic_id ;;
  clinic <- deref found ;;
  let day_of_week := weekday date in
  let hours := Clinic.business_hours clinic day_of_week in
  match hours with
  | None => ret []
  | Some hours =>
      if negb (BusinessHours.is_open hours) then ret []
      else
        let slot_start := combine date (BusinessHours.open_time hours) in
        let slot_end := combine date (BusinessHours.close_time hours) in
        let slots := all_slots slot_start slot_end duration in
        existing <- gets (fun w => get_appointments_for_date
                                     (World.session w) clinic_id date) ;;
        let available :=
          filter (fun slot => negb (has_conflict slot existing)) slots in
        ret (firstn 10 available)
  end.

End SlotGeneration.

(** ** Section 4.2: appointment creation *)

(** Modelled from the spec: [is_slot_available] is called by the listing
    but not given.  Spec 4.3: a second, authoritative overlap check under
    the same buffer rule, against the appointments of the clinic. *)
Definition is_slot_available (clinic_id : uuid) (slot : TimeSlot.t) : M bool :=
  gets (fun w =>
    negb (has_conflict slot
            (filter (fun a => N.eqb (Appointment.clinic_id a) clinic_id)
                    (Db.appointments (World.session w))))).

(** Modelled from the spec: [get_or_create_client] is not given.  Spec 4.3:
    the contact record is resolved, or created when there is none. *)
Definition get_or_create_client (clinic_id : uuid) (p : phone)
  (name : option string) : M Client.t :=
  found <- gets (fun w =>
             find (fun c => N.eqb (Client.clinic_id c) clinic_id
                            && String.eqb (Client.phone c) p)
                  (Db.clients (World.session w))) ;;
  match found with
  | Some c => ret c
  | None =>
      i <- uuid4 ;;
      let c := Client.mk i clinic_id p name 0 in
      db.add_client c ;;
      ret c
  end.

(** Modelled from the spec: [get_or_create_pet] is not given.  Spec 4.3:
    the subject record is resolved, or created when there is none. *)
Definition get_or_create_pet (client_id : uuid) (name : string)
  (species : option string) : M Pet.t :=
  found <- gets (fun w =>
             find (fun q => N.eqb (Pet.client_id q) client_id
                            && String.eqb (Pet.name q) name)
                  (Db.pets (World.session w))) ;;
  match found with
  | Some q => ret q
  | None =>
      i <- uuid4 ;;
      let q := Pet.mk i client_id name species in
      db.add_pet q ;;
      ret q
  end.

(** Modelled from the spec: [log_conversation_action] is not given; the
    action is recorded against the conversation. *)
Definition log_conversation_action (conversation_id : uuid) (action : string)
  (appointment_id : uuid) : M unit :=
  db.add_action (ActionLog.mk conversation_id action appointment_id) ;;
  db.commit.

(** [if s:] on an optional string: [None] and the empty string are false. *)
Definition truthy (s : option string) : option string :=
  match s with
  | Some EmptyString => None
  | other => other
  end.

(** The listing reads the duration as [(slot.end - slot.start).minutes].
    The difference of two [datetime] values is a [datetime.timedelta], whose
    attributes are [days], [seconds] and [microseconds] only: reading
    [.minutes] raises AttributeError, whatever the difference is. *)
Definition timedelta_minutes (d : timedelta) : M Z := raise AttributeError.

(** The arguments of [Appointment(...)] are evaluated in the order written:
    [uuid4()] has been drawn when the duration is read, [utcnow()] comes
    after it. *)
Definition create_appointment_from_conversation (conversation_id : uuid)
  (slot : TimeSlot.t) (reason : string) : M Appointment.t :=
  found <- get_conversation conversation_id ;;
  conversation <- deref found ;;
  (* Race condition check *)
  available <- is_slot_available (Conversation.clinic_id conversation) slot ;;
  if negb available then raise SlotNoLongerAvailable
  else
    client <- get_or_create_client
                (Conversation.clinic_id conversation)
                (Conversation.client_phone conversation)
                (Conversation.extracted_client_name conversation) ;;
    pet <- match truthy (Conversation.extracted_pet_name conversation) with
           | Some pet_name =>
               q <- get_or_create_pet (Client.id client) pet_name
                      (Conversation.extracted_pet_species conversation) ;;
               ret (Some q)
           | None => ret None
           end ;;
    i <- uuid4 ;;
    duration_minutes <- timedelta_minutes
                          (TimeSlot.end_ slot - TimeSlot.start slot)%Z ;;
    created <- utcnow ;;
    let appointment :=
      Appointment.mk i
        (Conversation.clinic_id conversation)
        (Some (Client.id client))
        (option_map Pet.id pet)
        (TimeSlot.start slot)
        (TimeSlot.end_ slot)
        duration_minutes
        reason
        "scheduled"
        "whatsapp"
        (Some conversation_id)
        "normal"
        None
        created in
    db.add_appointment appointment ;;
    db.commit ;;
    log_conversation_action conversation_id "appointment_created"
      (Appointment.id appointment) ;;
    ret appointment.

(** ** Section 4.3: the slot selection parser *)

(** [re.search] with the three ordinal patterns, on a stripped message:
    [^1$] holds of the message ["1"] alone, the other alternatives are
    plain words found anywhere. *)
Definition number_patterns : list ((string -> bool) * nat) :=
  [ (fun m => String.eqb m "1" || Text.contains "primera" m
              || Text.contains "opción 1" m || Text.contains "uno" m, 0%nat);
    (fun m => String.eqb m "2" || Text.contains "segunda" m
              || Text.contains "opción 2" m || Text.contains "dos" m, 1%nat);
    (fun m => String.eqb m "3" || Text.contains "tercera" m
              || Text.contains "opción 3" m || Text.contains "tres" m, 2%nat) ].

(** A [for] loop whose body may [return]: the first iteration that
    returns decides. *)
Fixpoint first_return {A B} (l : list A) (body : A -> option B) : option B :=
  match l with
  | [] => None
  | x :: rest =>
      match body x with
      | Some r => Some r
      | None => first_return rest body
      end
  end.

Section SlotSelection.

(** The time patterns, their extractors and [slot_matches] are named by the
    listing and not given: [Match] is a regular-expression match, [Target]
    what an extractor makes of it; a pattern is its search function. *)
Variables Match Target : Type.
Variable time_patterns : list ((string -> option Match) * (Match -> Target)).
Variable slot_matches : TimeSlot.t -> Target -> bool.

Definition parse_slot_selection (user_message : string)
  (offered_slots : list TimeSlot.t) : option TimeSlot.t :=
  let message := Text.strip (Text.lower user_message) in
  (* Direct number selection *)
  match first_return number_patterns
          (fun '(pattern, index) =>
             if pattern message
             then if (index <? length offered_slots)%nat
                  then nth_error offered_slots index
                  else None
             else None) with
  | Some slot => Some slot
  | None =>
      (* Time-based selection *)
      first_return time_patterns
        (fun '(search, extractor) =>
           match search message with
           | Some m =>
               let target := extractor m in
               first_return offered_slots
                 (fun slot =>
                    if slot_matches slot target then Some slot else None)
           | None => None
           end)
  end.

End SlotSelection.

(** ** Section 5.1: emergency detection *)

Module EMERGENCY_KEYWORDS.
Definition high : list string :=
  [ "veneno"; "envenenado"; "envenenamiento";
    "atropellado"; "atropelló"; "carro";
    "no respira"; "no puede respirar"; "asfixia";
    "convulsión"; "convulsionando"; "convulsiones";
    "sangre"; "sangrando"; "hemorragia";
    "no se mueve"; "inconsciente"; "desmayado";
    "parto"; "dando a luz"; "no puede parir" ].

Definition medium : list string :=
  [ "urgente"; "emergencia"; "ayuda";
    "muy mal"; "grave"; "crítico";
    "vomitando sangre"; "diarrea con sangre";
    "hinchado"; "inflamado" ].
End EMERGENCY_KEYWORDS.

Module EmergencyDetection.
Record t := mk {
  is_potential_emergency : bool;
  confidence : option string;
  matched_keywords : list string;
  requires_confirmation : bool }.

(** [EmergencyDetection(is_potential_emergency=False)].  The class is not
    listed: only [is_potential_emergency] of this value is given by the
    source.  The other three fields are written here as no confidence, no
    keyword and no confirmation to have a value of the record; what the
    class puts there is not known. *)
Definition negative : t := mk false None [] false.
End EmergencyDetection.

(** A list is true when it is not empty. *)
Definition nonempty {A} (l : list A) : bool :=
  match l with [] => false | _ :: _ => true end.

Definition detect_emergency (message : string) : EmergencyDetection.t :=
  let message_lower := Text.lower message in
  let high_matches :=
    filter (fun kw => Text.contains kw message_lower) EMERGENCY_KEYWORDS.high in
  let medium_matches :=
    filter (fun kw => Text.contains kw message_lower)
           EMERGENCY_KEYWORDS.medium in
  if nonempty high_matches then
    EmergencyDetection.mk true (Some "high") high_matches true
  else if (2 <=? length medium_matches)%nat
          || (nonempty medium_matches && Text.contains "!" message) then
    EmergencyDetection.mk true (Some "medium") medium_matches true
  else EmergencyDetection.negative.

(** ** Sections 5.2 and 5.3: confirmation, escalation, the priority slot *)

Module EmergencyAction.
Record t := mk {
  action : string;
  emergency_id : option uuid;
  message : string }.
End EmergencyAction.

Definition denied_message : string :=
  "Lo siento, el acceso a emergencias está restringido para este número. Por favor llama directamente al consultorio.".

Definition redirect_message : string :=
  "Entendido. ¿Te gustaría agendar una cita regular para revisión?".

(** Modelled from the spec: [send_emergency_alert] is not given.  Spec 6:
    a send-message command (contact address, text) is handed to the message
    gateway, and the send may fail. *)
Definition send_emergency_alert (p : phone) (message : string) : M unit :=
  fun w =>
    if World.reachable w p then
      (inr tt,
       World.mk (World.store w) (World.session w)
                (World.outbox w ++ [(p, message)])%list
                (World.reachable w) (World.now w) (World.next_uuid w))
    else (inl DeliveryError, w).

Definition create_emergency_slot (clinic_id : uuid) (emergency_id : uuid)
  : M Appointment.t :=
  now <- utcnow ;;
  (* Emergency slot starts now, 60 min duration *)
  i <- uuid4 ;;
  let appointment :=
    Appointment.mk i clinic_id None None
      now (now + minutes 60)%Z 60
      "EMERGENCIA" "emergency" "whatsapp" None "emergency"
      (Some emergency_id) now in
  db.add_appointment appointment ;;
  db.commit ;;
  ret appointment.

Section Escalation.

(** The two message formatters: the wording of the alert and of the reply
    to the client is of no consequence below.  The second receives what
    [get_clinic] answered. *)
Variable format_emergency_alert : EmergencyEvent.t -> Conversation.t -> string.
Variable format_emergency_client_response : option Clinic.t -> string.

(** Step 1 of [execute_emergency_escalation]: the event is built and added
    to the session. *)
Definition escalation_create_event (conversation_id : uuid)
  (conversation : Conversation.t) : M EmergencyEvent.t :=
  i <- uuid4 ;;
  created <- utcnow ;;
  let emergency :=
    EmergencyEvent.mk i
      (Conversation.clinic_id conversation)
      conversation_id
      (Conversation.client_phone conversation)
      (Conversation.emergency_description conversation)
      (Conversation.emergency_keywords conversation)
      "active"
      created in
  db.add_emergency_event emergency ;;
  ret emergency.

(** Step 3: one alert per escalation contact.  The [EmergencyAlert] row is
    built and never added to the session. *)
Definition escalation_alert (emergency : EmergencyEvent.t)
  (conversation : Conversation.t) : M unit :=
  escalation_contacts <-
    get_escalation_contacts (Conversation.clinic_id conversation) ;;
  for_each escalation_contacts (fun contact =>
    send_emergency_alert (EscalationContact.phone contact)
      (format_emergency_alert emergency conversation) ;;
    sent <- utcnow ;;
    let _ := EmergencyAlert.mk (EmergencyEvent.id emergency)
               (EscalationContact.phone contact) sent "sent" in
    ret tt).

(** Step 4: the conversation moves to ESCALATE and points to the event. *)
Definition escalation_update_conversation (emergency : EmergencyEvent.t)
  (conversation : Conversation.t) : M unit :=
  db.save_conversation
    (Conversation.set_emergency_id (Some (EmergencyEvent.id emergency))
       (Conversation.set_state ESCALATE conversation)) ;;
  db.commit.

Definition execute_emergency_escalation (conversation_id : uuid)
  : M EmergencyAction.t :=
  found <- get_conversation conversation_id ;;
  conversation <- deref found ;;
  clinic <- get_clinic (Conversation.clinic_id conversation) ;;
  (* 1. Create emergency event *)
  emergency <- escalation_create_event conversation_id conversation ;;
  (* 2. Create priority appointment slot *)
  priority_slot <- create_emergency_slot
                     (Conversation.clinic_id conversation)
                     (EmergencyEvent.id emergency) ;;
  (* 3. Alert veterinarian(s) *)
  escalation_alert emergency conversation ;;
  (* 4. Update conversation state *)
  escalation_update_conversation emergency conversation ;;
  ret (EmergencyAction.mk "escalated"
         (Some (EmergencyEvent.id emergency))
         (format_emergency_client_response clinic)).

(** The run of [execute_emergency_escalation] up to the end of step 2, the
    point reached by a process that dies before any alert is sent. *)
Definition escalation_until_alerts (conversation_id : uuid) : M unit :=
  found <- get_conversation conversation_id ;;
  conversation <- deref found ;;
  clinic <- get_clinic (Conversation.clinic_id conversation) ;;
  emergency <- escalation_create_event conversation_id conversation ;;
  priority_slot <- create_emergency_slot
                     (Conversation.clinic_id conversation)
                     (EmergencyEvent.id emergency) ;;
  ret tt.

Definition handle_emergency_confirmation (conversation_id : uuid)
  (user_confirmed : bool) : M EmergencyAction.t :=
  found <- get_conversation conversation_id ;;
  conversation <- deref found ;;
  client <- get_client_by_phone (Conversation.client_phone conversation) ;;
  (* Check for abuse *)
  if match client with
     | Some c => (Client.false_emergency_count c >=? 1)%Z
     | None => false
     end
  then ret (EmergencyAction.mk "denied" None denied_message)
  else if negb user_confirmed then
    (* Log false alarm *)
    match client with
    | Some c =>
        db.save_client
          (Client.set_false_emergency_count
             (Client.false_emergency_count c + 1)%Z c) ;;
        db.commit
    | None => ret tt
    end ;;
    ret (EmergencyAction.mk "redirect_to_scheduling" None redirect_message)
  else
    (* CONFIRMED EMERGENCY *)
    execute_emergency_escalation conversation_id.

End Escalation.

(** The active emergency events of a conversation. *)
Definition active_events (conversation_id : uuid) (d : Db.t)
  : list EmergencyEvent.t :=
  filter (fun e => N.eqb (EmergencyEvent.conversation_id e) conversation_id
                   && String.eqb (EmergencyEvent.status e) "active")
         (Db.emergency_events d).

(** ** Section 6: follow-ups *)

Module Protocol.
Record t := mk {
  schedule : list Z;              (* hours after procedure *)
  messages : list string;
  escalation_keywords : list string }.
End Protocol.

Definition FOLLOW_UP_PROTOCOLS : list (string * Protocol.t) :=
  [ ("surgery",
     Protocol.mk [24; 48; 72; 168]%Z
       [ "Hola, ¿cómo sigue {pet_name} después de la cirugía de ayer? ¿Ha comido y orinado con normalidad?";
         "Hola, segundo día post-operatorio. ¿Cómo va la recuperación de {pet_name}? ¿Alguna molestia o sangrado?";
         "Hola, ¿cómo sigue {pet_name}? ¿La herida se ve bien? ¿Ha tenido fiebre o dejado de comer?";
         "Hola, esta semana toca revisión de puntos para {pet_name}. ¿Quieres que agendemos la cita?" ]
       [ "sangre"; "sangrado"; "fiebre"; "no come"; "hinchado"; "pus"; "olor" ]);
    ("vaccination",
     Protocol.mk [24]%Z
       [ "Hola, ¿cómo está {pet_name} después de la vacuna? Es normal algo de decaimiento. Si presenta vómito, diarrea o hinchazón en la cara, escríbenos de inmediato." ]
       [ "vómito"; "diarrea"; "hinchazón"; "cara hinchada"; "no respira" ]);
    ("consultation",
     Protocol.mk [48]%Z
       [ "Hola, ¿cómo sigue {pet_name}? ¿Ha mejorado con el tratamiento?" ]
       [ "peor"; "empeora"; "no mejora"; "igual" ]) ].

(** [d.get(key)] on a dict written as its list of items. *)
Definition dict_get {V} (d : list (string * V)) (key : string) : option V :=
  option_map snd (find (fun kv => String.eqb (fst kv) key) d).

(** [FOLLOW_UP_PROTOCOLS['consultation']]. *)
Definition consultation_protocol : Protocol.t :=
  match dict_get FOLLOW_UP_PROTOCOLS "consultation" with
  | Some p => p
  | None => Protocol.mk [] [] []
  end.

(** [FOLLOW_UP_PROTOCOLS.get(procedure_type, FOLLOW_UP_PROTOCOLS['consultation'])]. *)
Definition protocol_for (procedure_type : string) : Protocol.t :=
  match dict_get FOLLOW_UP_PROTOCOLS procedure_type with
  | Some p => p
  | None => consultation_protocol
  end.

(** [enumerate(l)], counting from [i]. *)
Fixpoint enumerate_from {A} (i : nat) (l : list A) : list (nat * A) :=
  match l with
  | [] => []
  | x :: rest => (i, x) :: enumerate_from (S i) rest
  end.

(** The loop of [schedule_follow_ups] over the enumerated schedule; the
    rows made so far are carried along. *)
Fixpoint schedule_loop (appointment_id : uuid) (appointment : Appointment.t)
  (protocol : Protocol.t) (steps : list (nat * Z))
  (follow_ups : list FollowUp.t) : M (list FollowUp.t) :=
  match steps with
  | [] => ret follow_ups
  | (i, h) :: rest =>
      let scheduled_at := (Appointment.end_time appointment + hours h)%Z in
      fid <- uuid4 ;;
      template <- match nth_error (Protocol.messages protocol) i with
                  | Some m => ret m
                  | None => raise IndexError
                  end ;;
      created <- utcnow ;;
      let follow_up :=
        FollowUp.mk fid appointment_id
          (Appointment.clinic_id appointment)
          (Appointment.client_id appointment)
          (Appointment.pet_id appointment)
          template
          (Protocol.escalation_keywords protocol)
          scheduled_at
          "pending"
          (Z.of_nat i + 1)
          created in
      db.add_follow_up follow_up ;;
      schedule_loop appointment_id appointment protocol rest
        (follow_ups ++ [follow_up])%list
  end.

Definition schedule_follow_ups (appointment_id : uuid)
  (procedure_type : string) : M (list FollowUp.t) :=
  found <- get_appointment appointment_id ;;
  appointment <- deref found ;;
  let protocol := protocol_for procedure_type in
  follow_ups <- schedule_loop appointment_id appointment protocol
                  (enumerate_from 0 (Protocol.schedule protocol)) [] ;;
  db.commit ;;
  ret follow_ups.

(** ** Sample data

    A clinic open on week days from 8:00 to 12:00, two conversations, a
    client flagged for a false emergency and a booked appointment; used to
    run the definitions above on concrete inputs. *)

Module Sample.

Definition clinic : Clinic.t :=
  Clinic.mk 10 "Clinica Central"
    (fun weekday =>
       if ((0 <=? weekday) && (weekday <=? 4))%Z
       then Some (BusinessHours.mk true (hours 8) (hours 12))
       else if (weekday =? 5)%Z
       then Some (BusinessHours.mk false (hours 8) (hours 12))
       else None).

(** Monday 2024-10-07, and the Saturday and Sunday that follow. *)
Definition monday : date := 20003%Z.
Definition saturday : date := 20008%Z.
Definition sunday : date := 20009%Z.

Definition conversation : Conversation.t :=
  Conversation.mk 1 10 "+573001112233" "whatsapp" "inbound" CONFIRM_EMERGENCY
    [("reason", "intoxicacion")] (Some 5%Z) (Some 300000005%Z)
    (Some "Ana") (Some "Luna") (Some "gato")
    "Mi gato se comió veneno ayuda" ["veneno"; "ayuda"] None None.

Definition closed_conversation : Conversation.t :=
  Conversation.mk 2 10 "+573004445566" "whatsapp" "inbound" CLOSED
    [("reason", "vacuna")] (Some 5%Z) None
    (Some "Luis") None None "" [] None None.

Definition flagged_client : Client.t :=
  Client.mk 20 10 "+573004445566" (Some "Luis") 1.

(** Monday 9:00 to 9:30. *)
Definition booked : Appointment.t :=
  Appointment.mk 30 10 (Some 20%N) None
    (combine monday (hours 9)) (combine monday (hours 9) + minutes 30)%Z 30
    "vacuna" "scheduled" "manual" None "normal" None 0.

Definition database : Db.t :=
  Db.mk [clinic]
        [EscalationContact.mk 10 "+573009990001";
         EscalationContact.mk 10 "+573009990002"]
        [conversation; closed_conversation]
        [flagged_client]
        []
        [booked]
        []
        []
        [].

(** The appointments of a clinic that start on the given day. *)
Definition starting_on (d : Db.t) (clinic_id : uuid) (day : date)
  : list Appointment.t :=
  filter (fun a => N.eqb (Appointment.clinic_id a) clinic_id
                   && (combine day 0 <=? Appointment.start_time a)%Z
                   && (Appointment.start_time a <? combine (day + 1) 0)%Z)
         (Db.appointments d).

Definition world : World.t :=
  World.fresh database (fun _ => true) (combine monday (hours 7)) 100.

(** The same world with a gateway that refuses every message. *)
Definition world_offline : World.t :=
  World.fresh database (fun _ => false) (combine monday (hours 7)) 100.

Definition alert_text (e : EmergencyEvent.t) (c : Conversation.t) : string :=
  "EMERGENCIA " ++ Conversation.client_phone c.

Definition reply_text (c : option Clinic.t) : string :=
  "EMERGENCIA REGISTRADA".

End Sample.

(** ** Further definitions for the properties of Part II *)

(** The read that answers all the appointments of the clinic, whatever the
    date: one possible [get_appointments_for_date]. *)
Definition clinic_appointments (d : Db.t) (clinic_id : uuid) (day : date)
  : list Appointment.t :=
  filter (fun a => N.eqb (Appointment.clinic_id a) clinic_id)
         (Db.appointments d).

(** Two appointments of one clinic, neither cancelled, are kept apart: the
    overlap test of the slot filter, five minutes on each side, fails. *)
Definition apart (a b : Appointment.t) : Prop :=
  Appointment.clinic_id a = Appointment.clinic_id b ->
  Appointment.status a <> "cancelled" ->
  Appointment.status b <> "cancelled" ->
  ~ ((Appointment.start_time a < Appointment.end_time b + minutes 5)%Z
     /\ (Appointment.end_time a > Appointment.start_time b - minutes 5)%Z).

(** No two appointments of the list overlap under the buffer rule. *)
Definition conflict_free (l : list Appointment.t) : Prop :=
  ForallOrdPairs apart l.

(** The number of iterations of the [while] loop of the slot generator. *)
Definition candidate_count (slot_start slot_end : datetime) (duration : Z)
  : nat :=
  Z.to_nat ((slot_end - (slot_start + minutes duration)) / minutes 30 + 1).

(** The contacts that the alert loop reaches: those before the first one
    the gateway refuses. *)
Fixpoint notified (reachable : phone -> bool)
  (contacts : list EscalationContact.t) : list EscalationContact.t :=
  match contacts with
  | [] => []
  | c :: rest =>
      if reachable (EscalationContact.phone c)
      then c :: notified reachable rest
      else []
  end.

(** The sample world with a client record, not flagged, for the contact of
    conversation 1. *)
Definition sample_unflagged_world : World.t :=
  World.fresh
    (Db.with_clients
       (fun _ => [Client.mk 21 10 "+573001112233" (Some "Ana") 0;
                  Sample.flagged_client])
       Sample.database)
    (fun _ => true) (combine Sample.monday (hours 7)) 100.

(** ** Section 6.4: follow-up response analysis *)

Module FollowUpAnalysis.
Record t := mk {
  status : string;
  requires_escalation : bool;
  matched_keywords : list string;
  recommendation : string }.
End FollowUpAnalysis.

(** Modelled from the spec: [get_follow_up], the follow-up with that
    identifier. *)
Definition get_follow_up (follow_up_id : uuid) : M (option FollowUp.t) :=
  gets (fun w => find (fun f => N.eqb (FollowUp.id f) follow_up_id)
                      (Db.follow_ups (World.session w))).

Definition negative_indicators : list string :=
  ["mal"; "peor"; "preocupa"; "no mejora"; "problema"].

Definition positive_indicators : list string :=
  ["bien"; "mejor"; "normal"; "tranquilo"; "comiendo"].

(** [sum(1 for ind in indicators if ind in message)]. *)
Definition count_indicators (indicators : list string) (message : string)
  : nat :=
  length (filter (fun ind => Text.contains ind message) indicators).

(** [FollowUpAnalysis(status='normal', ...)] names no keywords: the field
    takes its empty default. *)
Definition analyze_follow_up_response (follow_up_id : uuid)
  (response_message : string) : M FollowUpAnalysis.t :=
  found <- get_follow_up follow_up_id ;;
  follow_up <- deref found ;;
  let message_lower := Text.lower response_message in
  (* Check for escalation keywords *)
  let matched_keywords :=
    filter (fun kw => Text.contains kw message_lower)
           (FollowUp.escalation_keywords follow_up) in
  (* Sentiment analysis (simple) *)
  let negative_count := count_indicators negative_indicators message_lower in
  let positive_count := count_indicators positive_indicators message_lower in
  if nonempty matched_keywords || (positive_count <? negative_count)%nat then
    ret (FollowUpAnalysis.mk "concern"
           (0 <? length matched_keywords)%nat
           matched_keywords
           (if nonempty matched_keywords then "alert_vet" else "monitor"))
  else
    ret (FollowUpAnalysis.mk "normal" false [] "continue_protocol").

(** ** Section 6.3: the follow-up processor *)

(** Attributes that the processor writes and the records above do not
    carry, kept by row identifier: [FollowUp.sent_at], [FollowUp.error] and
    [Conversation.started_at]. *)
Module Columns.
Record t := mk {
  sent_at : list (uuid * datetime);
  error : list (uuid * exn);
  started_at : list (uuid * datetime) }.

Definition empty : t := mk [] [] [].
End Columns.

(** The world of the processor: the world above, the extra columns as the
    session sees them, and as they are committed. *)
Module Processor.
Record t := mk {
  world : World.t;
  columns : Columns.t;
  stored_columns : Columns.t }.

Definition start (w : World.t) : t := mk w Columns.empty Columns.empty.

(** Time passing between two runs: the same state, with the clock at
    [clock] when the next run reads it. *)
Definition at_time (clock : datetime) (s : t) : t :=
  mk (World.mk (World.store (world s)) (World.session (world s))
               (World.outbox (world s)) (World.reachable (world s))
               clock (World.next_uuid (world s)))
     (columns s) (stored_columns s).
End Processor.

Definition P (A : Type) : Type := Processor.t -> (exn + A) * Processor.t.

Definition P_ret {A} (a : A) : P A := fun s => (inr a, s).

Definition P_bind {A B} (c : P A) (k : A -> P B) : P B :=
  fun s => match c s with
           | (inl e, s') => (inl e, s')
           | (inr a, s') => k a s'
           end.

#[global] Instance Monad_P : Monad P := {| ret := @P_ret; bind := @P_bind |}.

(** A computation on the world, run inside the processor. *)
Definition lift {A} (c : M A) : P A :=
  fun s => match c (Processor.world s) with
           | (r, w') =>
               (r, Processor.mk w' (Processor.columns s)
                     (Processor.stored_columns s))
           end.

Definition update_columns (f : Columns.t -> Columns.t) : P unit :=
  fun s => (inr tt,
            Processor.mk (Processor.world s) (f (Processor.columns s))
              (Processor.stored_columns s)).

(** [db.commit()], extra columns included. *)
Definition commit_all : P unit :=
  fun s => match db.commit (Processor.world s) with
           | (r, w') => (r, Processor.mk w' (Processor.columns s)
                              (Processor.columns s))
           end.

(** [try: c  except Exception as e: handler(e)]: the handler runs in the
    state the failure left. *)
Definition try_except {A} (c : P A) (handler : exn -> P A) : P A :=
  fun s => match c s with
           | (inl e, s') => handler e s'
           | (inr a, s') => (inr a, s')
           end.

Fixpoint for_each_P {A} (l : list A) (body : A -> P unit) : P unit :=
  match l with
  | [] => P_ret tt
  | x :: rest => P_bind (body x) (fun _ => for_each_P rest body)
  end.

Definition follow_up_with_status (s : string) (f : FollowUp.t) : FollowUp.t :=
  FollowUp.mk (FollowUp.id f) (FollowUp.appointment_id f)
    (FollowUp.clinic_id f) (FollowUp.client_id f) (FollowUp.pet_id f)
    (FollowUp.message_template f) (FollowUp.escalation_keywords f)
    (FollowUp.scheduled_at f) s (FollowUp.sequence_number f)
    (FollowUp.created_at f).

(** [follow_up.status = ...]: an attribute update on a loaded row. *)
Definition save_follow_up (f : FollowUp.t) : M unit :=
  update_session (Db.with_follow_ups
    (map (fun r => if N.eqb (FollowUp.id r) (FollowUp.id f) then f else r))).

Definition add_conversation (c : Conversation.t) : M unit :=
  update_session (Db.with_conversations (fun l => (l ++ [c])%list)).

(** Modelled from the spec: [get_client], the client with that identifier;
    there is none for a follow-up without a client. *)
Definition get_client (client_id : option uuid) : M (option Client.t) :=
  gets (fun w =>
    match client_id with
    | Some i => find (fun c => N.eqb (Client.id c) i)
                     (Db.clients (World.session w))
    | None => None
    end).

(** Modelled from the spec: [get_pet], the pet with that identifier. *)
Definition get_pet (pet_id : uuid) : M (option Pet.t) :=
  gets (fun w => find (fun q => N.eqb (Pet.id q) pet_id)
                      (Db.pets (World.session w))).

(** Modelled from the spec: [whatsapp_send] hands a send-message command to
    the message gateway (spec 6), and the send may fail. *)
Definition whatsapp_send (p : phone) (message : string) : M unit :=
  fun w =>
    if World.reachable w p then
      (inr tt,
       World.mk (World.store w) (World.session w)
                (World.outbox w ++ [(p, message)])%list
                (World.reachable w) (World.now w) (World.next_uuid w))
    else (inl DeliveryError, w).

(** A pending follow-up whose time has come. *)
Definition due (now : datetime) (f : FollowUp.t) : bool :=
  String.eqb (FollowUp.status f) "pending"
  && (FollowUp.scheduled_at f <=? now)%Z.

Section FollowUpProcessor.

(** [template.format(pet_name=..., client_name=...)] is the library's; it
    answers the text or raises. *)
Variable str_format : string -> string -> string -> exn + string.

Definition send_follow_up (follow_up : FollowUp.t) : P unit :=
  client <- lift (get_client (FollowUp.client_id follow_up)) ;;
  pet <- match FollowUp.pet_id follow_up with
         | Some i => lift (get_pet i)
         | None => ret None
         end ;;
  (* Format message *)
  let pet_name := match pet with
                  | Some q => Pet.name q
                  | None => "tu mascota"
                  end in
  c <- lift (deref client) ;;
  let client_name := match truthy (Client.name c) with
                     | Some n => n
                     | None => ""
                     end in
  message <- lift (match str_format (FollowUp.message_template follow_up)
                           pet_name client_name with
                   | inl e => raise e
                   | inr m => M_ret m
                   end) ;;
  (* Create conversation for follow-up *)
  i <- lift uuid4 ;;
  started <- lift utcnow ;;
  let conversation :=
    Conversation.mk i (FollowUp.clinic_id follow_up) (Client.phone c)
      "whatsapp" "follow_up" COLLECT_STATUS [] None None None None None
      "" [] None (Some (FollowUp.id follow_up)) in
  lift (add_conversation conversation) ;;
  update_columns (fun k =>
    Columns.mk (Columns.sent_at k) (Columns.error k)
               (Columns.started_at k ++ [(i, started)])%list) ;;
  (* Send via WhatsApp *)
  lift (whatsapp_send (Client.phone c) message) ;;
  (* Log message: the Message row is built and never added *)
  sent <- lift utcnow ;;
  commit_all.

Definition process_pending_follow_ups : P unit :=
  now <- lift utcnow ;;
  pending <- lift (gets (fun w => filter (due now)
                                    (Db.follow_ups (World.session w)))) ;;
  for_each_P pending (fun follow_up =>
    try_except
      (send_follow_up follow_up ;;
       lift (save_follow_up (follow_up_with_status "sent" follow_up)) ;;
       update_columns (fun k =>
         Columns.mk (Columns.sent_at k ++ [(FollowUp.id follow_up, now)])%list
                    (Columns.error k) (Columns.started_at k)))
      (fun e =>
       lift (save_follow_up (follow_up_with_status "failed" follow_up)) ;;
       update_columns (fun k =>
         Columns.mk (Columns.sent_at k)
                    (Columns.error k ++ [(FollowUp.id follow_up, e)])%list
                    (Columns.started_at k))) ;;
    commit_all).

(** What sending one follow-up comes to, read off the clients, the pets
    and the gateway: the address and the text, or the exception raised
    before anything is sent. *)
Definition prepared (d : Db.t) (follow_up : FollowUp.t)
  : exn + (phone * string) :=
  match match FollowUp.client_id follow_up with
        | Some i => find (fun c => N.eqb (Client.id c) i) (Db.clients d)
        | None => None
        end with
  | None => inl AttributeError
  | Some c =>
      let pet :=
        match FollowUp.pet_id follow_up with
        | Some i => find (fun q => N.eqb (Pet.id q) i) (Db.pets d)
        | None => None
        end in
      match str_format (FollowUp.message_template follow_up)
              (match pet with Some q => Pet.name q | None => "tu mascota" end)
              (match truthy (Client.name c) with
               | Some n => n
               | None => ""
               end) with
      | inl e => inl e
      | inr m => inr (Client.phone c, m)
      end
  end.

(** The status a due follow-up ends with. *)
Definition outcome (d : Db.t) (reachable : phone -> bool)
  (follow_up : FollowUp.t) : string :=
  match prepared d follow_up with
  | inr (p, _) => if reachable p then "sent" else "failed"
  | inl _ => "failed"
  end.

End FollowUpProcessor.

(** The conversation opened for a follow-up. *)
Definition follow_up_conversation (i : uuid) (f : FollowUp.t) (p : phone)
  : Conversation.t :=
  Conversation.mk i (FollowUp.clinic_id f) p "whatsapp" "follow_up"
    COLLECT_STATUS [] None None None None None "" [] None
    (Some (FollowUp.id f)).

(** The row update of [save_follow_up]. *)
Definition replace_follow_up (f : FollowUp.t) (rows : list FollowUp.t)
  : list FollowUp.t :=
  map (fun r => if N.eqb (FollowUp.id r) (FollowUp.id f) then f else r) rows.

(** One iteration of the loop of the processor, as a function on states:
    the three ways it can go (nothing to send, the send refused, the send
    accepted) written out.  Part II shows that the loop body computes it. *)
Definition iteration (str_format : string -> string -> string -> exn + string)
  (now : datetime) (f : FollowUp.t) (s : Processor.t) : Processor.t :=
  let w := Processor.world s in
  let k := Processor.columns s in
  match prepared str_format (World.session w) f with
  | inl e =>
      let d := Db.with_follow_ups
                 (replace_follow_up (follow_up_with_status "failed" f))
                 (World.session w) in
      let k' := Columns.mk (Columns.sent_at k)
                  (Columns.error k ++ [(FollowUp.id f, e)])%list
                  (Columns.started_at k) in
      Processor.mk
        (World.mk d d (World.outbox w) (World.reachable w) (World.now w)
           (World.next_uuid w))
        k' k'
  | inr (p, m) =>
      let opened :=
        Db.with_conversations
          (fun l => (l ++ [follow_up_conversation (World.next_uuid w) f p])%list)
          (World.session w) in
      let started :=
        (Columns.started_at k ++ [(World.next_uuid w, World.now w)])%list in
      if World.reachable w p then
        let d := Db.with_follow_ups
                   (replace_follow_up (follow_up_with_status "sent" f))
                   opened in
        let k' := Columns.mk (Columns.sent_at k ++ [(FollowUp.id f, now)])%list
                    (Columns.error k) started in
        Processor.mk
          (World.mk d d (World.outbox w ++ [(p, m)])%list (World.reachable w)
             (World.now w) (N.succ (World.next_uuid w)))
          k' k'
      else
        let d := Db.with_follow_ups
                   (replace_follow_up (follow_up_with_status "failed" f))
                   opened in
        let k' := Columns.mk (Columns.sent_at k)
                    (Columns.error k ++ [(FollowUp.id f, DeliveryError)])%list
                    started in
        Processor.mk
          (World.mk d d (World.outbox w) (World.reachable w) (World.now w)
             (N.succ (World.next_uuid w)))
          k' k'
  end.

(** What the gateway receives for a follow-up: its message when it can be
    prepared and the address is reachable, nothing otherwise. *)
Definition delivery (str_format : string -> string -> string -> exn + string)
  (d : Db.t) (reachable : phone -> bool) (f : FollowUp.t)
  : list (phone * string) :=
  match prepared str_format d f with
  | inr (p, m) => if reachable p then [(p, m)] else []
  | inl _ => []
  end.

(** The address of the conversation opened for a follow-up: one when the
    message can be prepared, reachable or not. *)
Definition opening (str_format : string -> string -> string -> exn + string)
  (d : Db.t) (f : FollowUp.t) : list (uuid * phone) :=
  match prepared str_format d f with
  | inr (p, _) => [(FollowUp.id f, p)]
  | inl _ => []
  end.

(** Sample data for the processor: a client, and four follow-ups of the
    booked appointment: one due, one due without a client, one not yet due
    and one already sent. *)
Module SampleFollowUps.

Definition due_row : FollowUp.t :=
  FollowUp.mk 40 30 10 (Some 20%N) None "Hola, como sigue {pet_name}?"
    ["sangre"; "fiebre"] (combine Sample.monday (hours 10)) "pending" 1 0.

Definition orphan_row : FollowUp.t :=
  FollowUp.mk 41 30 10 None None "Hola, como sigue {pet_name}?"
    ["sangre"; "fiebre"] (combine Sample.monday (hours 11)) "pending" 2 0.

Definition later_row : FollowUp.t :=
  FollowUp.mk 42 30 10 (Some 20%N) None "Hola, como sigue {pet_name}?"
    ["sangre"; "fiebre"] (combine Sample.monday (hours 20)) "pending" 3 0.

Definition sent_row : FollowUp.t :=
  FollowUp.mk 43 30 10 (Some 20%N) None "Hola, como sigue {pet_name}?"
    ["sangre"; "fiebre"] (combine Sample.monday (hours 9)) "sent" 4 0.

Definition rows : list FollowUp.t :=
  [due_row; orphan_row; later_row; sent_row].

Definition world : World.t :=
  World.fresh (Db.with_follow_ups (fun _ => rows) Sample.database)
    (fun _ => true) (combine Sample.monday (hours 12)) 200.

(** A formatter that puts the pet name after the template. *)
Definition format (template pet_name client_name : string) : exn + string :=
  inr (template ++ " " ++ pet_name).

End SampleFollowUps.

(** What identifies the conversation of a follow-up, its fresh identifier
    aside: the follow-up, the address, the state and the kind. *)
Definition conversation_summary (c : Conversation.t)
  : option uuid * phone * State * string :=
  (Conversation.follow_up_id c, Conversation.client_phone c,
   Conversation.state c, Conversation.type c).

(** The status the processor leaves a row with: a due row takes its
    outcome, any other row keeps its status. *)
Definition settled (str_format : string -> string -> string -> exn + string)
  (d : Db.t) (reachable : phone -> bool) (now : datetime) (r : FollowUp.t)
  : FollowUp.t :=
  if due now r
  then follow_up_with_status (outcome str_format d reachable r) r
  else r.

(** No identifier occurs twice (the primary key of a table). *)
Fixpoint distinct (l : list uuid) : bool :=
  match l with
  | [] => true
  | x :: rest => negb (existsb (N.eqb x) rest) && distinct rest
  end.

(** Section 2.2, column Fallback: where the timeout of a state leads,
    [None] where the table has a dash; CLOSE is the state CLOSED. *)
Definition STATE_FALLBACK (s : State) : option State :=
  match s with
  | GREETING => Some INTENT_DETECTION
  | INTENT_DETECTION | ASK_REASON | OFFER_SLOTS | AWAIT_SELECTION
  | CONFIRM_BOOKING => Some REMINDER
  | CONFIRM_EMERGENCY | COLLECT_STATUS | COMPLETED | REMINDER => Some CLOSED
  | IDLE | ESCALATE | CLOSED => None
  end.

(** [reaches s t]: the table leads from [s] to [t] in some number of
    transitions. *)
Inductive reaches : State -> State -> Prop :=
| reaches_here : forall s, reaches s s
| reaches_step : forall s d t,
    In d (STATE_TRANSITIONS s) -> reaches d t -> reaches s t.

(* ===================================================================== *)
(** * Part II: properties *)
(* ===================================================================== *)

Lemma contains_prefix_sound needle hay :
  String.prefix needle hay = true -> exists post, hay = needle ++ post.
Proof.
  revert hay; induction needle as [|c n IH]; intros hay H.
  - exists hay; reflexivity.
  - destruct hay as [|d h]; simpl in H; [discriminate|].
    destruct (ascii_dec c d) as [->|]; [|discriminate].
    destruct (IH _ H) as [post ->]. exists post; reflexivity.
Qed.

Lemma prefix_app needle post : String.prefix needle (needle ++ post) = true.
Proof.
  induction needle as [|c n IH]; simpl.
  - destruct post; reflexivity.
  - destruct (ascii_dec c c); [assumption|congruence].
Qed.

(** [contains] is the substring test: it answers [true] exactly when the
    needle occurs somewhere in the text. *)
Lemma contains_spec needle hay :
  Text.contains needle hay = true <->
  exists pre post, hay = pre ++ needle ++ post.
Proof.
  split.
  - induction hay as [|c h IH]; cbn [Text.contains].
    + destruct (String.prefix needle "") eqn:E; [|discriminate].
      intros _. destruct (contains_prefix_sound _ _ E) as [post ->].
      exists "", post; reflexivity.
    + destruct (String.prefix needle (String c h)) eqn:E.
      * intros _. destruct (contains_prefix_sound _ _ E) as [post ->].
        exists "", post; reflexivity.
      * intros H. destruct (IH H) as (pre & post & ->).
        exists (String c pre), post; reflexivity.
  - intros (pre & post & ->).
    induction pre as [|c p IH].
    + change ("" ++ needle ++ post) with (needle ++ post).
      destruct (needle ++ post) eqn:E; cbn [Text.contains];
        rewrite <- E, prefix_app; reflexivity.
    + change (String c p ++ needle ++ post)
        with (String c (p ++ needle ++ post)).
      cbn [Text.contains]. rewrite IH.
      destruct (String.prefix _ _); reflexivity.
Qed.

(** ** The state machine *)

Lemma state_eqb_eq a b : state_eqb a b = true <-> a = b.
Proof. destruct a, b; simpl; split; intros H; congruence. Qed.

Lemma allowed_In src dst :
  StateMachine.allowed src dst = true <-> In dst (STATE_TRANSITIONS src).
Proof.
  unfold StateMachine.allowed. rewrite existsb_exists. split.
  - intros (x & Hin & Heq). apply state_eqb_eq in Heq. subst. assumption.
  - intros Hin. exists dst. split; [assumption|]. apply state_eqb_eq.
    reflexivity.
Qed.

(** A transition of the table succeeds: the conversation enters the
    destination and takes the deadline of the destination's timeout. *)
Lemma transition_inside_table now c ev :
  In (StateMachine.destination ev) (STATE_TRANSITIONS (Conversation.state c)) ->
  exists c',
    StateMachine.transition now c ev = (inr (StateMachine.destination ev), c')
    /\ Conversation.state c' = StateMachine.destination ev
    /\ Conversation.timeout_at c'
       = option_map (Z.add now) (STATE_TIMEOUT (StateMachine.destination ev))
    /\ Conversation.state_data c' = Conversation.state_data c.
Proof.
  intros Hin. apply allowed_In in Hin.
  unfold StateMachine.transition. rewrite Hin.
  eexists. repeat split.
Qed.

(** C3: an event whose requested destination is not listed for the current
    state in STATE_TRANSITIONS fails with InvalidTransition, and the
    conversation (state, working memory, deadline, every field) is returned
    as it was. *)
Theorem transition_outside_table_fails now c ev :
  ~ In (StateMachine.destination ev) (STATE_TRANSITIONS (Conversation.state c)) ->
  StateMachine.transition now c ev = (inl InvalidTransition, c).
Proof.
  intros Hout. unfold StateMachine.transition.
  destruct (StateMachine.allowed (Conversation.state c)
              (StateMachine.destination ev)) eqn:E.
  - apply allowed_In in E. contradiction.
  - reflexivity.
Qed.

Lemma transition_outside_table_fails_witness :
  StateMachine.transition 1000 Sample.closed_conversation
    (StateMachine.mkEvent StateMachine.inbound_message ASK_REASON)
  = (inl InvalidTransition, Sample.closed_conversation).
Proof.
  apply transition_outside_table_fails.
  simpl. intros [H | []]. discriminate H.
Defined.

(** ** Emergency detection *)

(** The terms of the high-confidence list are written in lower case. *)
Lemma high_keywords_lower kw :
  In kw EMERGENCY_KEYWORDS.high -> Text.lower kw = kw.
Proof.
  assert (H : forallb (fun k => String.eqb (Text.lower k) k)
                      EMERGENCY_KEYWORDS.high = true) by (vm_compute; reflexivity).
  rewrite forallb_forall in H.
  intros Hin. apply String.eqb_eq. apply H. assumption.
Qed.

Lemma nonempty_In {A} (x : A) l : In x l -> nonempty l = true.
Proof. destruct l; simpl; [intros [] | reflexivity]. Qed.

(** C4: a message that contains a term of the high-confidence list, case
    ignored, is reported as a potential emergency of confidence 'high' that
    requires confirmation, whatever else the message says. *)
Theorem detect_emergency_high_confidence message kw :
  In kw EMERGENCY_KEYWORDS.high ->
  Text.contains_ignoring_case kw message = true ->
  EmergencyDetection.is_potential_emergency (detect_emergency message) = true
  /\ EmergencyDetection.confidence (detect_emergency message) = Some "high"
  /\ EmergencyDetection.requires_confirmation (detect_emergency message) = true
  /\ In kw (EmergencyDetection.matched_keywords (detect_emergency message)).
Proof.
  intros Hin Hsub. unfold Text.contains_ignoring_case in Hsub.
  rewrite (high_keywords_lower kw Hin) in Hsub.
  assert (Hmatch : In kw (filter (fun k => Text.contains k (Text.lower message))
                                 EMERGENCY_KEYWORDS.high))
    by (apply filter_In; split; assumption).
  unfold detect_emergency.
  rewrite (nonempty_In _ _ Hmatch).
  cbn [EmergencyDetection.is_potential_emergency EmergencyDetection.confidence
       EmergencyDetection.requires_confirmation
       EmergencyDetection.matched_keywords].
  repeat split; try reflexivity. assumption.
Qed.

Lemma detect_emergency_high_confidence_witness :
  EmergencyDetection.is_potential_emergency
    (detect_emergency "Hola, mi perro NO RESPIRA bien desde ayer") = true
  /\ EmergencyDetection.confidence
       (detect_emergency "Hola, mi perro NO RESPIRA bien desde ayer")
     = Some "high"
  /\ EmergencyDetection.requires_confirmation
       (detect_emergency "Hola, mi perro NO RESPIRA bien desde ayer") = true
  /\ In "no respira"
        (EmergencyDetection.matched_keywords
           (detect_emergency "Hola, mi perro NO RESPIRA bien desde ayer")).
Proof.
  apply detect_emergency_high_confidence.
  - simpl. do 6 right. left. reflexivity.
  - vm_compute. reflexivity.
Defined.

(** The scenario of the document: the term is found in the middle of the
    sentence; an accented term is found in capitals as well. *)
Example detect_emergency_scenario :
  detect_emergency "Mi gato se comió veneno ayuda"
  = EmergencyDetection.mk true (Some "high") ["veneno"] true
  /\ detect_emergency "ESTÁ CONVULSIONANDO, tuvo una CONVULSIÓN"
     = EmergencyDetection.mk true (Some "high")
         ["convulsión"; "convulsionando"] true.
Proof. vm_compute. split; reflexivity. Qed.

(** One medium term alone asks for nothing; with an exclamation mark, or
    with a second medium term, it asks for a confirmation. *)
Example detect_emergency_medium :
  detect_emergency "es urgente" = EmergencyDetection.negative
  /\ detect_emergency "es urgente!"
     = EmergencyDetection.mk true (Some "medium") ["urgente"] true
  /\ detect_emergency "es urgente, esta muy mal"
     = EmergencyDetection.mk true (Some "medium") ["urgente"; "muy mal"] true.
Proof. vm_compute. repeat split; reflexivity. Qed.

(** ** The slot selection parser *)

Lemma first_return_In {A} (l : list A) (p : A -> bool) r :
  first_return l (fun x => if p x then Some x else None) = Some r -> In r l.
Proof.
  induction l as [|x l IH]; simpl; [discriminate|].
  destruct (p x).
  - intros [= ->]. left; reflexivity.
  - intros H. right. apply IH. assumption.
Qed.

(** What a loop returns was returned by one of its iterations. *)
Lemma first_return_some {A B} (l : list A) (body : A -> option B) r :
  first_return l body = Some r -> exists x, In x l /\ body x = Some r.
Proof.
  induction l as [|x l IH]; simpl; [discriminate|].
  destruct (body x) eqn:E.
  - intros [= ->]. exists x. split; [left; reflexivity | assumption].
  - intros H. destruct (IH H) as (y & Hy & Hb).
    exists y. split; [right; assumption | assumption].
Qed.

(** C10: whatever the text and the offered slots, and whatever the time
    patterns, extractors and matching test are, the parser answers [None]
    or one of the offered slots; an ordinal beyond the offer selects
    nothing by itself. *)
Theorem parse_slot_selection_offered
  (Match Target : Type)
  (time_patterns : list ((string -> option Match) * (Match -> Target)))
  (slot_matches : TimeSlot.t -> Target -> bool)
  (user_message : string) (offered_slots : list TimeSlot.t) :
  match parse_slot_selection Match Target time_patterns slot_matches
          user_message offered_slots with
  | None => True
  | Some slot => In slot offered_slots
  end.
Proof.
  unfold parse_slot_selection.
  set (message := Text.strip (Text.lower user_message)).
  destruct (first_return number_patterns _) as [slot|] eqn:Enum.
  - apply first_return_some in Enum. destruct Enum as ([pattern index] & _ & H).
    destruct (pattern message); [|discriminate].
    destruct (index <? length offered_slots)%nat; [|discriminate].
    apply nth_error_In in H. assumption.
  - destruct (first_return time_patterns _) as [slot|] eqn:Etime; [|exact I].
    apply first_return_some in Etime.
    destruct Etime as ([search extractor] & _ & H).
    destruct (search message) as [m|]; [|discriminate].
    apply first_return_In in H. assumption.
Qed.

(** An ordinal beyond the number of offered slots: "tercera" with two slots
    on offer and no time pattern selects nothing. *)
Example parse_third_of_two :
  parse_slot_selection unit unit [] (fun _ _ => false) "La Tercera"
    [TimeSlot.mk 1 2; TimeSlot.mk 3 4] = None.
Proof. vm_compute. reflexivity. Qed.

Example parse_second_of_two :
  parse_slot_selection unit unit [] (fun _ _ => false) "  la SEGUNDA "
    [TimeSlot.mk 1 2; TimeSlot.mk 3 4] = Some (TimeSlot.mk 3 4).
Proof. vm_compute. reflexivity. Qed.

(** White space beyond ASCII is stripped as well: a no-break space (U+00A0,
    the bytes C2 A0) after the digit, an em space (U+2003, the bytes
    E2 80 83) before it. *)
Example strip_unicode_space :
  Text.strip (String (ascii_of_nat 226) (String (ascii_of_nat 128)
                (String (ascii_of_nat 131) " 1"))
              ++ String (ascii_of_nat 194) (String (ascii_of_nat 160) " "))
  = "1".
Proof. vm_compute. reflexivity. Qed.

Example parse_first_no_break_space :
  parse_slot_selection unit unit [] (fun _ _ => false)
    ("1" ++ String (ascii_of_nat 194) (String (ascii_of_nat 160) ""))
    [TimeSlot.mk 1 2; TimeSlot.mk 3 4] = Some (TimeSlot.mk 1 2).
Proof. vm_compute. reflexivity. Qed.

(** White space inside the text stays. *)
Example strip_keeps_inner_space :
  Text.strip "  la  primera " = "la  primera".
Proof. vm_compute. reflexivity. Qed.

(** ** Slot generation *)

(** Running a computation written with the monad's notation. *)
Ltac run_monad :=
  cbn [bind ret Monad_M M_bind M_ret gets deref raise update_session
       utcnow uuid4 fst snd].

(** C7: on a date whose weekday has no open business hours for the clinic,
    the slot generator answers the empty list (and changes nothing). *)
Theorem get_available_slots_closed_day
  (get_appointments_for_date : Db.t -> uuid -> date -> list Appointment.t)
  (w : World.t) (clinic_id : uuid) (d : date) (duration : Z)
  (clinic : Clinic.t) :
  find (fun c => N.eqb (Clinic.id c) clinic_id) (Db.clinics (World.session w))
    = Some clinic ->
  closed_on clinic d = true ->
  get_available_slots get_appointments_for_date clinic_id d duration w
    = (inr [], w).
Proof.
  intros Hfind Hclosed.
  unfold get_available_slots, get_clinic. run_monad. rewrite Hfind. run_monad.
  unfold closed_on in Hclosed.
  destruct (Clinic.business_hours clinic (weekday d)) as [h|]; [|reflexivity].
  rewrite Hclosed. reflexivity.
Qed.

Lemma get_available_slots_closed_day_witness :
  get_available_slots Sample.starting_on 10 Sample.sunday 30 Sample.world
    = (inr [], Sample.world)
  /\ get_available_slots Sample.starting_on 10 Sample.saturday 30 Sample.world
    = (inr [], Sample.world).
Proof.
  split.
  - apply (get_available_slots_closed_day _ _ _ _ _ Sample.clinic);
      reflexivity.
  - apply (get_available_slots_closed_day _ _ _ _ _ Sample.clinic);
      reflexivity.
Defined.

(** Every candidate of the loop starts a whole number of half hours after
    the first one, lasts the asked duration and ends by the closing time. *)
Lemma all_slots_In current slot_end duration slot :
  In slot (all_slots current slot_end duration) ->
  exists k : Z,
    (0 <= k)%Z
    /\ TimeSlot.start slot = (current + k * minutes 30)%Z
    /\ TimeSlot.end_ slot = (TimeSlot.start slot + minutes duration)%Z
    /\ (TimeSlot.end_ slot <= slot_end)%Z.
Proof.
  funelim (all_slots current slot_end duration).
  - intros [<- | Hin].
    + exists 0%Z. cbn [TimeSlot.start TimeSlot.end_].
      repeat split; try lia.
    + match goal with IH : forall s, In s _ -> _ |- _ =>
        destruct (IH _ Hin) as (k & Hk & Hs & He & Hle) end.
      exists (k + 1)%Z. unfold minutes in *. repeat split; lia.
  - intros [].
Qed.

Lemma all_slots_earliest_first current slot_end duration :
  earliest_first (all_slots current slot_end duration).
Proof.
  unfold earliest_first.
  funelim (all_slots current slot_end duration); constructor.
  - assumption.
  - apply Forall_forall. intros s Hin.
    destruct (all_slots_In _ _ _ _ Hin) as (k & Hk & Hs & _).
    cbn [TimeSlot.start]. rewrite Hs. unfold minutes. lia.
Qed.

Lemma StronglySorted_filter {A} (R : A -> A -> Prop) (f : A -> bool) l :
  StronglySorted R l -> StronglySorted R (filter f l).
Proof.
  induction 1 as [|x l Hs IH Hall]; simpl; [constructor|].
  destruct (f x); [|assumption].
  constructor; [assumption|].
  rewrite Forall_forall in *. intros y Hy.
  apply Hall. apply filter_In in Hy. tauto.
Qed.

Lemma In_firstn {A} (n : nat) (l : list A) x : In x (firstn n l) -> In x l.
Proof.
  revert l; induction n as [|n IH]; intros [|y l]; simpl; try tauto.
  intros [-> | H]; [left; reflexivity | right; apply IH; assumption].
Qed.

Lemma StronglySorted_firstn {A} (R : A -> A -> Prop) (n : nat) l :
  StronglySorted R l -> StronglySorted R (firstn n l).
Proof.
  intros Hs. revert n.
  induction Hs as [|x l Hs IH Hall]; intros [|n]; simpl; try constructor.
  - apply IH.
  - rewrite Forall_forall in *. intros y Hy.
    apply Hall. eapply In_firstn; eassumption.
Qed.

(** [has_conflict] answers [false] exactly when no appointment of the list
    that is not cancelled meets the slot widened by five minutes. *)
Lemma has_conflict_false slot existing :
  has_conflict slot existing = false <->
  forall apt, In apt existing -> Appointment.status apt <> "cancelled" ->
    ~ ((Appointment.start_time apt < TimeSlot.end_ slot + minutes 5)%Z
       /\ (Appointment.end_time apt > TimeSlot.start slot - minutes 5)%Z).
Proof.
  unfold has_conflict. split.
  - intros H apt Hin Hst [Hlt Hgt].
    assert (E : existsb (overlaps_buffered slot)
                  (filter (fun a => negb (str_in (Appointment.status a)
                                            ["cancelled"])) existing) = true).
    { apply existsb_exists. exists apt. split.
      - apply filter_In. split; [assumption|].
        unfold str_in; simpl. rewrite orb_false_r.
        destruct (String.eqb_spec (Appointment.status apt) "cancelled");
          [contradiction | reflexivity].
      - unfold overlaps_buffered. apply andb_true_iff. split.
        + apply Z.ltb_lt. assumption.
        + apply Z.gtb_lt. lia. }
    congruence.
  - intros H. apply not_true_is_false. intros E.
    apply existsb_exists in E. destruct E as (apt & Hin & Hov).
    apply filter_In in Hin. destruct Hin as [Hin Hst].
    apply (H apt Hin).
    + intros Hc. rewrite Hc in Hst. discriminate Hst.
    + unfold overlaps_buffered in Hov. apply andb_true_iff in Hov.
      destruct Hov as [Hlt Hgt]. apply Z.ltb_lt in Hlt. apply Z.gtb_lt in Hgt.
      lia.
Qed.

(** C6: for an existing clinic, whatever the date and the duration, the
    slot generator returns (changing nothing) at most ten slots, earliest
    first, each a whole number of half hours after the opening time of that
    weekday, of the asked duration and ending by the closing time, and none
    overlapping a non-cancelled existing appointment once five minutes are
    added on both sides. *)
Theorem get_available_slots_sound
  (get_appointments_for_date : Db.t -> uuid -> date -> list Appointment.t)
  (w : World.t) (clinic_id : uuid) (d : date) (duration : Z)
  (clinic : Clinic.t) :
  find (fun c => N.eqb (Clinic.id c) clinic_id) (Db.clinics (World.session w))
    = Some clinic ->
  exists slots,
    get_available_slots get_appointments_for_date clinic_id d duration w
      = (inr slots, w)
    /\ (length slots <= 10)%nat
    /\ earliest_first slots
    /\ forall slot, In slot slots ->
         (exists hours k,
            Clinic.business_hours clinic (weekday d) = Some hours
            /\ BusinessHours.is_open hours = true
            /\ (0 <= k)%Z
            /\ TimeSlot.start slot
               = (combine d (BusinessHours.open_time hours) + k * minutes 30)%Z
            /\ TimeSlot.end_ slot = (TimeSlot.start slot + minutes duration)%Z
            /\ (TimeSlot.end_ slot
                <= combine d (BusinessHours.close_time hours))%Z)
         /\ (forall apt,
               In apt (get_appointments_for_date (World.session w) clinic_id d) ->
               Appointment.status apt <> "cancelled" ->
               ~ ((Appointment.start_time apt
                   < TimeSlot.end_ slot + minutes 5)%Z
                  /\ (Appointment.end_time apt
                      > TimeSlot.start slot - minutes 5)%Z)).
Proof.
  intros Hfind.
  unfold get_available_slots, get_clinic. run_monad. rewrite Hfind. run_monad.
  destruct (Clinic.business_hours clinic (weekday d)) as [h|] eqn:Eh.
  2:{ exists []. split; [reflexivity|]. split; [simpl; lia|].
      split; [constructor|]. intros slot []. }
  destruct (BusinessHours.is_open h) eqn:Eopen; cbn [negb].
  2:{ exists []. split; [reflexivity|]. split; [simpl; lia|].
      split; [constructor|]. intros slot []. }
  eexists. split; [reflexivity|]. split; [apply firstn_le_length|].
  split.
  - apply StronglySorted_firstn, StronglySorted_filter,
      all_slots_earliest_first.
  - intros slot Hin. apply In_firstn in Hin. apply filter_In in Hin.
    destruct Hin as [Hin Hfree]. split.
    + destruct (all_slots_In _ _ _ _ Hin) as (k & Hk & Hs & He & Hle).
      exists h, k. repeat split; assumption.
    + apply has_conflict_false. apply negb_true_iff. assumption.
Qed.

Lemma get_available_slots_sound_witness :
  exists slots,
    get_available_slots Sample.starting_on 10 Sample.monday 30 Sample.world
      = (inr slots, Sample.world)
    /\ (length slots <= 10)%nat
    /\ earliest_first slots
    /\ forall slot, In slot slots ->
         (exists hours k,
            Clinic.business_hours Sample.clinic (weekday Sample.monday)
              = Some hours
            /\ BusinessHours.is_open hours = true
            /\ (0 <= k)%Z
            /\ TimeSlot.start slot
               = (combine Sample.monday (BusinessHours.open_time hours)
                  + k * minutes 30)%Z
            /\ TimeSlot.end_ slot = (TimeSlot.start slot + minutes 30)%Z
            /\ (TimeSlot.end_ slot
                <= combine Sample.monday (BusinessHours.close_time hours))%Z)
         /\ (forall apt,
               In apt (Sample.starting_on (World.session Sample.world) 10
                         Sample.monday) ->
               Appointment.status apt <> "cancelled" ->
               ~ ((Appointment.start_time apt
                   < TimeSlot.end_ slot + minutes 5)%Z
                  /\ (Appointment.end_time apt
                      > TimeSlot.start slot - minutes 5)%Z)).
Proof.
  apply (get_available_slots_sound Sample.starting_on Sample.world 10
           Sample.monday 30 Sample.clinic).
  reflexivity.
Defined.

(** On the sample Monday, with 9:00 to 9:30 booked, the free half hours are
    8:00, 10:00, 10:30, 11:00 and 11:30: the buffer also removes the two
    slots that touch the booked one. *)
Example get_available_slots_monday :
  fst (get_available_slots Sample.starting_on 10 Sample.monday 30 Sample.world)
  = inr (map (fun h => TimeSlot.mk (combine Sample.monday h)
                                   (combine Sample.monday h + minutes 30)%Z)
             [hours 8; hours 10; (hours 10 + minutes 30)%Z; hours 11;
              (hours 11 + minutes 30)%Z]).
Proof. vm_compute. reflexivity. Qed.

(** A day long enough for more than ten free slots gives the first ten. *)
Example get_available_slots_cap :
  let open_all_day :=
    Clinic.mk 11 "Veinticuatro horas"
      (fun _ => Some (BusinessHours.mk true 0 (hours 24))) in
  let w := World.fresh (Db.mk [open_all_day] [] [] [] [] [] [] [] [])
             (fun _ => true) 0 0 in
  option_map (@length _)
    (match fst (get_available_slots Sample.starting_on 11 Sample.sunday 45 w)
     with inr l => Some l | inl _ => None end) = Some 10%nat.
Proof. vm_compute. reflexivity. Qed.

(** ** Emergency confirmation *)

(** C5: when the contact of the conversation has a false-emergency count of
    at least one, the confirmation handler answers 'denied' with the
    message that sends the contact to call the clinic, for both values of
    the flag, and the world is left as it was: no event, no alert, no
    appointment. *)
Theorem handle_emergency_confirmation_denied
  (format_emergency_alert : EmergencyEvent.t -> Conversation.t -> string)
  (format_emergency_client_response : option Clinic.t -> string)
  (w : World.t) (conversation_id : uuid) (user_confirmed : bool)
  (conversation : Conversation.t) (client : Client.t) :
  find (fun c => N.eqb (Conversation.id c) conversation_id)
       (Db.conversations (World.session w)) = Some conversation ->
  find (fun c => String.eqb (Client.phone c)
                   (Conversation.client_phone conversation))
       (Db.clients (World.session w)) = Some client ->
  (Client.false_emergency_count client >= 1)%Z ->
  handle_emergency_confirmation format_emergency_alert
    format_emergency_client_response conversation_id user_confirmed w
  = (inr (EmergencyAction.mk "denied" None denied_message), w).
Proof.
  intros Hconv Hclient Hcount.
  unfold handle_emergency_confirmation, get_conversation, get_client_by_phone.
  run_monad. rewrite Hconv. run_monad. rewrite Hclient.
  destruct (Z.geb_spec (Client.false_emergency_count client) 1) as [_|Hlt];
    [reflexivity | lia].
Qed.

Lemma handle_emergency_confirmation_denied_witness :
  handle_emergency_confirmation Sample.alert_text Sample.reply_text 2 true
    Sample.world
  = (inr (EmergencyAction.mk "denied" None denied_message), Sample.world)
  /\ handle_emergency_confirmation Sample.alert_text Sample.reply_text 2 false
       Sample.world
     = (inr (EmergencyAction.mk "denied" None denied_message), Sample.world).
Proof.
  split;
    apply (handle_emergency_confirmation_denied _ _ _ _ _
             Sample.closed_conversation Sample.flagged_client);
    solve [reflexivity | simpl; lia].
Defined.

(** ** Appointment creation *)

Lemma M_bind_run {A B} (c : M A) (k : A -> M B) w :
  M_bind c k w
  = match c w with
    | (inl e, w') => (inl e, w')
    | (inr a, w') => k a w'
    end.
Proof. reflexivity. Qed.

(** Resolving or creating the client always succeeds, commits nothing,
    sends nothing and leaves the appointments of the session alone. *)
Lemma get_or_create_client_frame clinic_id p name w :
  exists c w',
    get_or_create_client clinic_id p name w = (inr c, w')
    /\ World.store w' = World.store w
    /\ World.outbox w' = World.outbox w
    /\ Db.appointments (World.session w') = Db.appointments (World.session w).
Proof.
  unfold get_or_create_client. run_monad.
  destruct (find _ (Db.clients (World.session w))) as [c|].
  - exists c, w. repeat split.
  - unfold db.add_client. run_monad. eexists _, _. repeat split.
Qed.

Lemma get_or_create_pet_frame client_id name species w :
  exists q w',
    get_or_create_pet client_id name species w = (inr q, w')
    /\ World.store w' = World.store w
    /\ World.outbox w' = World.outbox w
    /\ Db.appointments (World.session w') = Db.appointments (World.session w).
Proof.
  unfold get_or_create_pet. run_monad.
  destruct (find _ (Db.pets (World.session w))) as [q|].
  - exists q, w. repeat split.
  - unfold db.add_pet. run_monad. eexists _, _. repeat split.
Qed.

(** A booking that fails the check raises and writes nothing. *)
Lemma create_appointment_refused
  (w : World.t) (conversation_id : uuid) (slot : TimeSlot.t) (reason : string)
  (conversation : Conversation.t) :
  find (fun c => N.eqb (Conversation.id c) conversation_id)
       (Db.conversations (World.session w)) = Some conversation ->
  has_conflict slot
    (filter (fun a => N.eqb (Appointment.clinic_id a)
                        (Conversation.clinic_id conversation))
            (Db.appointments (World.session w))) = true ->
  create_appointment_from_conversation conversation_id slot reason w
    = (inl SlotNoLongerAvailable, w).
Proof.
  intros Hconv Hbusy.
  unfold create_appointment_from_conversation, get_conversation,
    is_slot_available.
  run_monad. rewrite Hconv. run_monad. rewrite Hbusy. reflexivity.
Qed.

(** A booking that passes the check stops where the duration is read: the
    client and the pet have been resolved in the session and an identifier
    has been drawn, but [db.add] and [db.commit] are not reached. *)
Lemma create_appointment_passed
  (w : World.t) (conversation_id : uuid) (slot : TimeSlot.t) (reason : string)
  (conversation : Conversation.t) :
  find (fun c => N.eqb (Conversation.id c) conversation_id)
       (Db.conversations (World.session w)) = Some conversation ->
  has_conflict slot
    (filter (fun a => N.eqb (Appointment.clinic_id a)
                        (Conversation.clinic_id conversation))
            (Db.appointments (World.session w))) = false ->
  exists w',
    create_appointment_from_conversation conversation_id slot reason w
      = (inl AttributeError, w')
    /\ World.store w' = World.store w
    /\ World.outbox w' = World.outbox w
    /\ Db.appointments (World.session w') = Db.appointments (World.session w).
Proof.
  intros Hconv Hfree.
  unfold create_appointment_from_conversation, get_conversation,
    is_slot_available, timedelta_minutes.
  run_monad. rewrite Hconv. run_monad. rewrite Hfree. cbn [negb].
  run_monad. rewrite M_bind_run.
  destruct (get_or_create_client_frame
              (Conversation.clinic_id conversation)
              (Conversation.client_phone conversation)
              (Conversation.extracted_client_name conversation) w)
    as (client & w1 & -> & Hstore1 & Hout1 & Happ1).
  destruct (truthy (Conversation.extracted_pet_name conversation))
    as [pet_name|].
  - rewrite !M_bind_run.
    destruct (get_or_create_pet_frame (Client.id client) pet_name
                (Conversation.extracted_pet_species conversation) w1)
      as (pet & w2 & -> & Hstore2 & Hout2 & Happ2).
    run_monad. eexists. split; [reflexivity|].
    cbn. rewrite Hstore2, Hout2, Happ2. repeat split; assumption.
  - run_monad. eexists. split; [reflexivity|].
    cbn. repeat split; assumption.
Qed.

(** C2: the booking re-checks the slot against the clinic's stored
    appointments with the overlap test of the slot generator (five minutes
    on both sides, cancelled appointments ignored).  When the test finds a
    conflict the call raises SlotNoLongerAvailable and nothing is written.
    When it finds none the call does not succeed either: reading [.minutes]
    of the window's length raises AttributeError before [db.add], so the
    committed rows are as before and no appointment is persisted. *)
Theorem create_appointment_free_slot_raises
  (w : World.t) (conversation_id : uuid) (slot : TimeSlot.t) (reason : string)
  (conversation : Conversation.t) :
  World.session w = World.store w ->
  find (fun c => N.eqb (Conversation.id c) conversation_id)
       (Db.conversations (World.session w)) = Some conversation ->
  let stored :=
    filter (fun a => N.eqb (Appointment.clinic_id a)
                       (Conversation.clinic_id conversation))
           (Db.appointments (World.store w)) in
  (has_conflict slot stored = true ->
   create_appointment_from_conversation conversation_id slot reason w
     = (inl SlotNoLongerAvailable, w))
  /\ (has_conflict slot stored = false ->
      exists w',
        create_appointment_from_conversation conversation_id slot reason w
          = (inl AttributeError, w')
        /\ World.store w' = World.store w).
Proof.
  intros Hclean Hconv stored. subst stored. rewrite <- Hclean.
  split; intros Hc.
  - apply (create_appointment_refused w conversation_id slot reason
             conversation Hconv Hc).
  - destruct (create_appointment_passed w conversation_id slot reason
                conversation Hconv Hc) as (w' & Hrun & Hstore & _).
    exists w'. split; [assumption | congruence].
Qed.

Lemma create_appointment_free_slot_raises_witness :
  create_appointment_from_conversation 1
    (TimeSlot.mk (combine Sample.monday (hours 9) + minutes 30)%Z
                 (combine Sample.monday (hours 10))) "vacuna" Sample.world
  = (inl SlotNoLongerAvailable, Sample.world)
  /\ exists w',
       create_appointment_from_conversation 1
         (TimeSlot.mk (combine Sample.monday (hours 10))
                      (combine Sample.monday (hours 10) + minutes 30)%Z)
         "vacuna" Sample.world
       = (inl AttributeError, w')
       /\ World.store w' = World.store Sample.world.
Proof.
  split.
  - apply (create_appointment_free_slot_raises Sample.world 1 _ "vacuna"
             Sample.conversation); vm_compute; reflexivity.
  - apply (create_appointment_free_slot_raises Sample.world 1
             (TimeSlot.mk (combine Sample.monday (hours 10))
                          (combine Sample.monday (hours 10) + minutes 30)%Z)
             "vacuna" Sample.conversation); vm_compute; reflexivity.
Defined.

(** The free half hour at 10:00 on the sample Monday: the call raises
    AttributeError and the stored appointments are the one booked before. *)
Example create_appointment_free_slot :
  let run := create_appointment_from_conversation 1
               (TimeSlot.mk (combine Sample.monday (hours 10))
                            (combine Sample.monday (hours 10) + minutes 30)%Z)
               "vacuna" Sample.world in
  fst run = inl AttributeError
  /\ Db.appointments (World.store (snd run)) = [Sample.booked]
  /\ Db.appointments (World.session (snd run)) = [Sample.booked].
Proof. vm_compute. repeat split. Qed.

(** A slot that only touches a booked appointment is refused as well: the
    half hour after the booked 9:00 to 9:30 starts inside its buffer. *)
Example create_appointment_adjacent_slot :
  fst (create_appointment_from_conversation 1
         (TimeSlot.mk (combine Sample.monday (hours 9) + minutes 30)%Z
                      (combine Sample.monday (hours 10))) "vacuna"
         Sample.world)
  = inl SlotNoLongerAvailable.
Proof. vm_compute. reflexivity. Qed.

(** ** Emergency escalation *)

(** A loop whose body keeps the data of the world keeps it, whether it
    runs to its end or stops at an iteration that raises. *)
Lemma for_each_same_data {A} (body : A -> M unit) :
  (forall x w, World.same_data w (snd (body x w))) ->
  forall l w, World.same_data w (snd (for_each l body w)).
Proof.
  intros Hbody l. induction l as [|x rest IH]; intros w.
  - repeat split.
  - cbn [for_each]. rewrite M_bind_run.
    specialize (Hbody x w). destruct (body x w) as [[e|[]] w1]; cbn [snd] in *.
    + assumption.
    + specialize (IH w1). unfold World.same_data in *.
      destruct Hbody as (? & ? & ? & ?), IH as (? & ? & ? & ?).
      repeat split; congruence.
Qed.

(** Sending the alerts, whether every send succeeds or one of them raises,
    touches neither the store nor the session, the clock or the supply of
    identifiers. *)
Lemma escalation_alert_same_data
  (format_emergency_alert : EmergencyEvent.t -> Conversation.t -> string)
  (emergency : EmergencyEvent.t) (conversation : Conversation.t) (w : World.t) :
  World.same_data w
    (snd (escalation_alert format_emergency_alert emergency conversation w)).
Proof.
  unfold escalation_alert, get_escalation_contacts. run_monad.
  apply for_each_same_data. clear. intros contact w.
  run_monad. rewrite M_bind_run. unfold send_emergency_alert.
  destruct (World.reachable w (EscalationContact.phone contact));
    repeat split.
Qed.

(** What one run of the escalation leaves in the store: whether the alerts
    go out or a send raises, one more event and one more appointment are
    committed, and the session holds nothing uncommitted. *)
Lemma execute_emergency_escalation_effect
  (format_emergency_alert : EmergencyEvent.t -> Conversation.t -> string)
  (format_emergency_client_response : option Clinic.t -> string)
  (w : World.t) (conversation_id : uuid) (conversation : Conversation.t) :
  World.session w = World.store w ->
  find (fun c => N.eqb (Conversation.id c) conversation_id)
       (Db.conversations (World.session w)) = Some conversation ->
  let emergency :=
    EmergencyEvent.mk (World.next_uuid w)
      (Conversation.clinic_id conversation) conversation_id
      (Conversation.client_phone conversation)
      (Conversation.emergency_description conversation)
      (Conversation.emergency_keywords conversation)
      "active" (World.now w) in
  let appointment :=
    Appointment.mk (N.succ (World.next_uuid w))
      (Conversation.clinic_id conversation) None None
      (World.now w) (World.now w + minutes 60)%Z 60
      "EMERGENCIA" "emergency" "whatsapp" None "emergency"
      (Some (World.next_uuid w)) (World.now w) in
  exists r w',
    execute_emergency_escalation format_emergency_alert
      format_emergency_client_response conversation_id w = (r, w')
    /\ Db.emergency_events (World.store w')
       = (Db.emergency_events (World.store w) ++ [emergency])%list
    /\ Db.appointments (World.store w')
       = (Db.appointments (World.store w) ++ [appointment])%list
    /\ World.session w' = World.store w'.
Proof.
  intros Hclean Hconv emergency appointment.
  unfold execute_emergency_escalation, get_conversation, get_clinic.
  run_monad. rewrite Hconv. run_monad.
  unfold escalation_create_event, create_emergency_slot,
    db.add_emergency_event, db.add_appointment, db.commit.
  run_monad. cbn [World.with_session World.session World.store World.now
                  World.next_uuid World.outbox World.reachable].
  fold emergency. rewrite M_bind_run.
  match goal with
  | |- context [escalation_alert ?f ?e ?c ?w1] =>
      pose proof (escalation_alert_same_data f e c w1) as Hsame;
      destruct (escalation_alert f e c w1) as [[e1|[]] w2]
  end; cbn [snd] in Hsame; destruct Hsame as (Hs & Hv & Hn & Hu);
    cbn [World.session World.store] in Hs, Hv.
  - eexists _, _. split; [reflexivity|].
    rewrite Hs, Hv. cbn. rewrite Hclean. repeat split.
  - unfold escalation_update_conversation, db.save_conversation, db.commit.
    run_monad. eexists _, _. split; [reflexivity|].
    cbn. rewrite Hv. cbn. rewrite Hclean. repeat split.
Qed.

(** C8: one run of the escalation on an existing conversation commits
    exactly one new appointment, after the ones already stored, which stay
    as they were; the new one has status 'emergency', priority 'emergency',
    starts at the time of the call and lasts sixty minutes.  This holds when
    the alerts go out and when a send raises. *)
Theorem escalation_priority_appointment
  (format_emergency_alert : EmergencyEvent.t -> Conversation.t -> string)
  (format_emergency_client_response : option Clinic.t -> string)
  (w : World.t) (conversation_id : uuid) (conversation : Conversation.t) :
  World.session w = World.store w ->
  find (fun c => N.eqb (Conversation.id c) conversation_id)
       (Db.conversations (World.session w)) = Some conversation ->
  exists appointment r w',
    execute_emergency_escalation format_emergency_alert
      format_emergency_client_response conversation_id w = (r, w')
    /\ Db.appointments (World.store w')
       = (Db.appointments (World.store w) ++ [appointment])%list
    /\ Appointment.status appointment = "emergency"
    /\ Appointment.priority appointment = "emergency"
    /\ Appointment.start_time appointment = World.now w
    /\ Appointment.end_time appointment = (World.now w + minutes 60)%Z
    /\ Appointment.clinic_id appointment = Conversation.clinic_id conversation.
Proof.
  intros Hclean Hconv.
  destruct (execute_emergency_escalation_effect format_emergency_alert
              format_emergency_client_response w conversation_id conversation
              Hclean Hconv) as (r & w' & Hrun & _ & Happ & _).
  eexists _, r, w'. split; [exact Hrun|]. split; [exact Happ|].
  repeat split.
Qed.

Lemma escalation_priority_appointment_witness :
  exists appointment r w',
    execute_emergency_escalation Sample.alert_text Sample.reply_text 1
      Sample.world = (r, w')
    /\ Db.appointments (World.store w')
       = (Db.appointments (World.store Sample.world) ++ [appointment])%list
    /\ Appointment.status appointment = "emergency"
    /\ Appointment.priority appointment = "emergency"
    /\ Appointment.start_time appointment = World.now Sample.world
    /\ Appointment.end_time appointment
       = (World.now Sample.world + minutes 60)%Z
    /\ Appointment.clinic_id appointment
       = Conversation.clinic_id Sample.conversation.
Proof.
  apply (escalation_priority_appointment Sample.alert_text Sample.reply_text
           Sample.world 1 Sample.conversation); reflexivity.
Defined.

(** The sample escalation: the action is 'escalated', both contacts are
    alerted, the booked appointment is still the first stored one and the
    conversation is in ESCALATE. *)
Example escalation_sample_run :
  let run := execute_emergency_escalation Sample.alert_text Sample.reply_text
               1 Sample.world in
  option_map EmergencyAction.action
    (match fst run with inr a => Some a | inl _ => None end) = Some "escalated"
  /\ map fst (World.outbox (snd run)) = ["+573009990001"; "+573009990002"]
  /\ hd_error (Db.appointments (World.store (snd run))) = Some Sample.booked
  /\ length (Db.appointments (World.store (snd run))) = 2%nat
  /\ option_map Conversation.state
       (find (fun c => N.eqb (Conversation.id c) 1)
             (Db.conversations (World.store (snd run)))) = Some ESCALATE.
Proof. vm_compute. repeat split. Qed.

(** With a gateway that refuses the alerts the call raises, and the event
    and the priority appointment are committed all the same. *)
Example escalation_sample_offline :
  let run := execute_emergency_escalation Sample.alert_text Sample.reply_text
               1 Sample.world_offline in
  fst run = inl DeliveryError
  /\ length (Db.appointments (World.store (snd run))) = 2%nat
  /\ length (active_events 1 (World.store (snd run))) = 1%nat.
Proof. vm_compute. repeat split. Qed.

(** C1, as stated, fails: the process dies after step 2 of the escalation
    of conversation 1 (event and priority slot committed, no alert sent);
    the retry runs the escalation again and the conversation ends with two
    active events. *)
Lemma escalation_retry_second_event :
  let w1 := World.crash (snd (escalation_until_alerts 1 Sample.world)) in
  let w2 := snd (execute_emergency_escalation Sample.alert_text
                   Sample.reply_text 1 w1) in
  active_events 1 (World.store Sample.world) = []
  /\ length (active_events 1 (World.store w1)) = 1%nat
  /\ World.outbox w1 = []
  /\ ~ (length (active_events 1 (World.store w2)) <= 1)%nat.
Proof.
  vm_compute. repeat split. intros H.
  apply le_S_n in H. inversion H.
Qed.

Lemma active_events_app conversation_id d e :
  EmergencyEvent.conversation_id e = conversation_id ->
  EmergencyEvent.status e = "active" ->
  forall events,
    Db.emergency_events d = (events ++ [e])%list ->
    length (active_events conversation_id d)
    = S (length (filter
                   (fun x => N.eqb (EmergencyEvent.conversation_id x)
                               conversation_id
                             && String.eqb (EmergencyEvent.status x) "active")
                   events)).
Proof.
  intros Hid Hst events Hev. unfold active_events.
  rewrite Hev, filter_app, length_app. cbn [filter].
  rewrite Hid, Hst, N.eqb_refl. cbn. lia.
Qed.

(** C1, amended: the escalation has no idempotency key.  Each run on an
    existing conversation, whether its alerts go out or a send raises,
    commits one new event for that conversation, with status 'active',
    after the events already stored; the conversation has one more active
    event than before the run, and nothing is left uncommitted, so that the
    same holds of the next run. *)
Theorem escalation_adds_active_event
  (format_emergency_alert : EmergencyEvent.t -> Conversation.t -> string)
  (format_emergency_client_response : option Clinic.t -> string)
  (w : World.t) (conversation_id : uuid) (conversation : Conversation.t) :
  World.session w = World.store w ->
  find (fun c => N.eqb (Conversation.id c) conversation_id)
       (Db.conversations (World.session w)) = Some conversation ->
  exists emergency r w',
    execute_emergency_escalation format_emergency_alert
      format_emergency_client_response conversation_id w = (r, w')
    /\ Db.emergency_events (World.store w')
       = (Db.emergency_events (World.store w) ++ [emergency])%list
    /\ EmergencyEvent.conversation_id emergency = conversation_id
    /\ EmergencyEvent.status emergency = "active"
    /\ length (active_events conversation_id (World.store w'))
       = S (length (active_events conversation_id (World.store w)))
    /\ World.session w' = World.store w'.
Proof.
  intros Hclean Hconv.
  destruct (execute_emergency_escalation_effect format_emergency_alert
              format_emergency_client_response w conversation_id conversation
              Hclean Hconv) as (r & w' & Hrun & Hev & _ & Hclean').
  eexists _, r, w'. split; [exact Hrun|]. split; [exact Hev|].
  split; [reflexivity|]. split; [reflexivity|]. split; [|exact Hclean'].
  eapply active_events_app; [| | exact Hev]; reflexivity.
Qed.

Lemma escalation_adds_active_event_witness :
  exists emergency r w',
    execute_emergency_escalation Sample.alert_text Sample.reply_text 1
      Sample.world = (r, w')
    /\ Db.emergency_events (World.store w')
       = (Db.emergency_events (World.store Sample.world) ++ [emergency])%list
    /\ EmergencyEvent.conversation_id emergency = 1%N
    /\ EmergencyEvent.status emergency = "active"
    /\ length (active_events 1 (World.store w'))
       = S (length (active_events 1 (World.store Sample.world)))
    /\ World.session w' = World.store w'.
Proof.
  apply (escalation_adds_active_event Sample.alert_text Sample.reply_text
           Sample.world 1 Sample.conversation); reflexivity.
Defined.

(** ** Follow-ups *)










(** An unknown procedure type gets the single check-in of a consultation,
    48 hours after the end of the appointment. *)
Example schedule_follow_ups_unknown_type :
  match fst (schedule_follow_ups 30 "dental" Sample.world) with
  | inr follow_ups =>
      map FollowUp.scheduled_at follow_ups
      = [(Appointment.end_time Sample.booked + hours 48)%Z]
      /\ map FollowUp.escalation_keywords follow_ups
         = [["peor"; "empeora"; "no mejora"; "igual"]]
  | inl _ => False
  end.
Proof. vm_compute. split; reflexivity. Qed.

(** ** Further properties: slot generation *)

Lemma all_slots_step current slot_end duration :
  all_slots current slot_end duration
  = if Z_le_gt_dec (current + minutes duration) slot_end
    then TimeSlot.mk current (current + minutes duration)
           :: all_slots (current + minutes 30) slot_end duration
    else [].
Proof.
  funelim (all_slots current slot_end duration); rewrite Heq; reflexivity.
Qed.

Lemma all_slots_length current slot_end duration :
  length (all_slots current slot_end duration)
  = candidate_count current slot_end duration.
Proof.
  unfold candidate_count.
  funelim (all_slots current slot_end duration); cbn [length].
  - match goal with IH : length _ = _ |- _ => rewrite IH end.
    clear Heq Heqcall. unfold minutes in *.
    set (d := (duration * 60000000)%Z) in *; clearbody d.
    replace (slot_end - (current + 30 * 60000000 + d))%Z
      with ((slot_end - (current + d)) + (-1) * (30 * 60000000))%Z by lia.
    rewrite Z.div_add by lia.
    assert (0 <= (slot_end - (current + d)) / (30 * 60000000))%Z
      by (apply Z.div_pos; lia).
    lia.
  - clear Heq Heqcall. unfold minutes in *.
    assert ((slot_end - (current + duration * 60000000)) / (30 * 60000000) < 0)%Z
      by (apply Z.div_lt_upper_bound; lia).
    lia.
Qed.

(** The loop misses no candidate: every start a whole number of half hours
    after the first one, whose slot ends by the closing time, is there. *)
Lemma all_slots_complete slot_end duration (k : Z) :
  (0 <= k)%Z ->
  forall current,
    (current + k * minutes 30 + minutes duration <= slot_end)%Z ->
    In (TimeSlot.mk (current + k * minutes 30)
                    (current + k * minutes 30 + minutes duration))
       (all_slots current slot_end duration).
Proof.
  intros Hk. pattern k. apply natlike_ind; [| |exact Hk]; clear k Hk.
  - intros current Hfit. rewrite all_slots_step.
    destruct (Z_le_gt_dec (current + minutes duration) slot_end);
      [|unfold minutes in *; lia].
    left. f_equal; lia.
  - intros k Hk IH current Hfit. rewrite all_slots_step.
    destruct (Z_le_gt_dec (current + minutes duration) slot_end);
      [|unfold minutes in *; lia].
    right.
    replace (current + Z.succ k * minutes 30)%Z
      with ((current + minutes 30) + k * minutes 30)%Z
      by (unfold minutes; lia).
    apply IH. unfold minutes in *. lia.
Qed.

(** The run of the slot generator on a day the clinic is open. *)
Lemma get_available_slots_run
  (get_appointments_for_date : Db.t -> uuid -> date -> list Appointment.t)
  (w : World.t) (clinic_id : uuid) (d : date) (duration : Z)
  (clinic : Clinic.t) (h : BusinessHours.t) :
  find (fun c => N.eqb (Clinic.id c) clinic_id) (Db.clinics (World.session w))
    = Some clinic ->
  Clinic.business_hours clinic (weekday d) = Some h ->
  BusinessHours.is_open h = true ->
  get_available_slots get_appointments_for_date clinic_id d duration w
  = (inr (firstn 10
            (filter
               (fun slot =>
                  negb (has_conflict slot
                          (get_appointments_for_date (World.session w)
                             clinic_id d)))
               (all_slots (combine d (BusinessHours.open_time h))
                          (combine d (BusinessHours.close_time h))
                          duration))), w).
Proof.
  intros Hfind Hh Hopen.
  unfold get_available_slots, get_clinic. run_monad. rewrite Hfind. run_monad.
  rewrite Hh, Hopen. reflexivity.
Qed.

Lemma firstn_short {A} (n : nat) (l : list A) :
  (length (firstn n l) < n)%nat -> firstn n l = l.
Proof.
  intros H. apply firstn_all2. rewrite length_firstn in H. lia.
Qed.

(** X1: when fewer than ten slots come back, nothing was cut: every half
    hour of the opening hours whose slot ends by the closing time and meets
    no appointment is in the answer. *)
Theorem get_available_slots_complete
  (get_appointments_for_date : Db.t -> uuid -> date -> list Appointment.t)
  (w : World.t) (clinic_id : uuid) (d : date) (duration : Z)
  (clinic : Clinic.t) (h : BusinessHours.t)
  (slots : list TimeSlot.t) (slot : TimeSlot.t) (k : Z) :
  find (fun c => N.eqb (Clinic.id c) clinic_id) (Db.clinics (World.session w))
    = Some clinic ->
  Clinic.business_hours clinic (weekday d) = Some h ->
  BusinessHours.is_open h = true ->
  fst (get_available_slots get_appointments_for_date clinic_id d duration w)
    = inr slots ->
  (length slots < 10)%nat ->
  (0 <= k)%Z ->
  TimeSlot.start slot
    = (combine d (BusinessHours.open_time h) + k * minutes 30)%Z ->
  TimeSlot.end_ slot = (TimeSlot.start slot + minutes duration)%Z ->
  (TimeSlot.end_ slot <= combine d (BusinessHours.close_time h))%Z ->
  has_conflict slot (get_appointments_for_date (World.session w) clinic_id d)
    = false ->
  In slot slots.
Proof.
  intros Hfind Hh Hopen Hrun Hlen Hk Hstart Hend Hfit Hfree.
  rewrite (get_available_slots_run _ _ _ _ _ _ _ Hfind Hh Hopen) in Hrun.
  cbn [fst] in Hrun.
  assert (Hslots : firstn 10
            (filter
               (fun s => negb (has_conflict s
                                 (get_appointments_for_date (World.session w)
                                    clinic_id d)))
               (all_slots (combine d (BusinessHours.open_time h))
                          (combine d (BusinessHours.close_time h)) duration))
          = slots) by congruence.
  clear Hrun. subst slots.
  rewrite (firstn_short _ _ Hlen). apply filter_In. split.
  - destruct slot as [s e]. cbn [TimeSlot.start TimeSlot.end_] in *.
    subst s e. apply all_slots_complete; [assumption|]. lia.
  - rewrite Hfree. reflexivity.
Qed.

Lemma get_available_slots_complete_witness :
  In (TimeSlot.mk (combine Sample.monday (hours 8) + 4 * minutes 30)%Z
                  (combine Sample.monday (hours 8) + 4 * minutes 30
                   + minutes 30)%Z)
     (firstn 10
        (filter (fun slot =>
                   negb (has_conflict slot
                           (Sample.starting_on (World.session Sample.world)
                              10 Sample.monday)))
                (all_slots (combine Sample.monday (hours 8))
                           (combine Sample.monday (hours 12)) 30))).
Proof.
  apply (get_available_slots_complete Sample.starting_on Sample.world 10
           Sample.monday 30 Sample.clinic
           (BusinessHours.mk true (hours 8) (hours 12)) _ _ 4);
    try reflexivity; vm_compute; solve [reflexivity | lia | discriminate].
Defined.

(** X2: on a day without appointments the generator answers one slot per
    iteration of its loop, ten at most: none when the asked duration does
    not fit between opening and closing time. *)
Theorem get_available_slots_count
  (get_appointments_for_date : Db.t -> uuid -> date -> list Appointment.t)
  (w : World.t) (clinic_id : uuid) (d : date) (duration : Z)
  (clinic : Clinic.t) (h : BusinessHours.t) :
  find (fun c => N.eqb (Clinic.id c) clinic_id) (Db.clinics (World.session w))
    = Some clinic ->
  Clinic.business_hours clinic (weekday d) = Some h ->
  BusinessHours.is_open h = true ->
  get_appointments_for_date (World.session w) clinic_id d = [] ->
  exists slots,
    get_available_slots get_appointments_for_date clinic_id d duration w
      = (inr slots, w)
    /\ length slots
       = Nat.min 10
           (candidate_count (combine d (BusinessHours.open_time h))
                            (combine d (BusinessHours.close_time h)) duration)
    /\ ((combine d (BusinessHours.close_time h)
         < combine d (BusinessHours.open_time h) + minutes duration)%Z ->
        slots = []).
Proof.
  intros Hfind Hh Hopen Hnone.
  rewrite (get_available_slots_run _ _ _ _ _ _ _ Hfind Hh Hopen), Hnone.
  eexists. split; [reflexivity|].
  assert (Hall : forall l : list TimeSlot.t,
             filter (fun slot => negb (has_conflict slot [])) l = l).
  { induction l as [|x l IH]; [reflexivity|].
    cbn [filter]. change (has_conflict x []) with false.
    cbn [negb]. rewrite IH. reflexivity. }
  rewrite Hall, length_firstn, all_slots_length. split; [reflexivity|].
  intros Hshort. rewrite all_slots_step.
  destruct (Z_le_gt_dec _ _); [lia | reflexivity].
Qed.

Lemma get_available_slots_count_witness :
  exists slots,
    get_available_slots (fun _ _ _ => []) 10 Sample.monday 300 Sample.world
      = (inr slots, Sample.world)
    /\ length slots
       = Nat.min 10
           (candidate_count (combine Sample.monday (hours 8))
                            (combine Sample.monday (hours 12)) 300)
    /\ ((combine Sample.monday (hours 12)
         < combine Sample.monday (hours 8) + minutes 300)%Z ->
        slots = []).
Proof.
  apply (get_available_slots_count (fun _ _ _ => []) Sample.world 10
           Sample.monday 300 Sample.clinic
           (BusinessHours.mk true (hours 8) (hours 12)));
    reflexivity.
Defined.

(** ** Further properties: booking *)

(** X5: no call of create_appointment_from_conversation returns an
    appointment.  Whatever the world, the conversation id, the slot and the
    reason, the call raises SlotNoLongerAvailable or AttributeError (an
    unknown conversation, or the duration read on a free slot); it commits
    nothing, sends nothing, and the appointments of the session are as
    before. *)
Theorem create_appointment_always_raises
  (w : World.t) (conversation_id : uuid) (slot : TimeSlot.t)
  (reason : string) :
  exists e w',
    create_appointment_from_conversation conversation_id slot reason w
      = (inl e, w')
    /\ (e = SlotNoLongerAvailable \/ e = AttributeError)
    /\ World.store w' = World.store w
    /\ World.outbox w' = World.outbox w
    /\ Db.appointments (World.session w') = Db.appointments (World.session w).
Proof.
  destruct (find (fun c => N.eqb (Conversation.id c) conversation_id)
                 (Db.conversations (World.session w)))
    as [conversation|] eqn:Hconv.
  - destruct (has_conflict slot
                (filter (fun a => N.eqb (Appointment.clinic_id a)
                                    (Conversation.clinic_id conversation))
                        (Db.appointments (World.session w)))) eqn:E.
    + exists SlotNoLongerAvailable, w.
      rewrite (create_appointment_refused w conversation_id slot reason
                 conversation Hconv E).
      repeat split. left. reflexivity.
    + destruct (create_appointment_passed w conversation_id slot reason
                  conversation Hconv E) as (w' & Hrun & Hs & Ho & Ha).
      exists AttributeError, w'. rewrite Hrun.
      repeat split; try assumption. right. reflexivity.
  - exists AttributeError, w.
    unfold create_appointment_from_conversation, get_conversation.
    run_monad. rewrite Hconv. run_monad.
    repeat split. right. reflexivity.
Qed.

(** The emergency slot is not checked against the calendar: on the sample
    data, an escalation at 9:10 leaves the booked 9:00 to 9:30 and the
    priority appointment overlapping. *)
Example emergency_slot_overlaps :
  let w := World.fresh Sample.database (fun _ => true)
             (combine Sample.monday (hours 9) + minutes 10)%Z 100 in
  ~ conflict_free
      (Db.appointments
         (World.store
            (snd (execute_emergency_escalation Sample.alert_text
                    Sample.reply_text 1 w)))).
Proof.
  intros w H.
  remember (Db.appointments _) as l eqn:El in H.
  vm_compute in El. subst l.
  unfold conflict_free in H.
  apply ForallOrdPairs_In with (x := Sample.booked)
    (y := Appointment.mk 101 10 None None
            (combine Sample.monday (hours 9) + minutes 10)%Z
            (combine Sample.monday (hours 9) + minutes 10 + minutes 60)%Z 60
            "EMERGENCIA" "emergency" "whatsapp" None "emergency"
            (Some 100%N)
            (combine Sample.monday (hours 9) + minutes 10)%Z) in H.
  - destruct H as [H | [H | H]].
    + discriminate H.
    + apply H; [reflexivity | discriminate | discriminate |].
      vm_compute. split; reflexivity.
    + apply H; [reflexivity | discriminate | discriminate |].
      vm_compute. split; reflexivity.
  - left. reflexivity.
  - right. left. reflexivity.
Qed.

(** ** Further properties: the slot selection parser *)

Lemma first_return_none {A B} (l : list A) (body : A -> option B) :
  (forall x, body x = None) -> first_return l body = None.
Proof.
  intros H. induction l as [|x l IH]; cbn [first_return]; [reflexivity|].
  rewrite H. exact IH.
Qed.

(** X7: with nothing on offer the parser selects nothing, whatever the
    message and whatever the time patterns. *)
Theorem parse_slot_selection_no_offer
  (Match Target : Type)
  (time_patterns : list ((string -> option Match) * (Match -> Target)))
  (slot_matches : TimeSlot.t -> Target -> bool)
  (user_message : string) :
  parse_slot_selection Match Target time_patterns slot_matches user_message []
  = None.
Proof.
  unfold parse_slot_selection.
  rewrite first_return_none.
  - apply first_return_none. intros [search extractor].
    destruct (search _); reflexivity.
  - intros [pattern index]. destruct (pattern _); [|reflexivity].
    destruct index; reflexivity.
Qed.

(** X8: an ordinal for the first option wins over everything else.  A
    message that is "1", or that contains "primera", "opción 1" or "uno"
    anywhere (so also inside another word), selects the first offered slot,
    whatever the time patterns would find. *)
Theorem parse_slot_selection_first
  (Match Target : Type)
  (time_patterns : list ((string -> option Match) * (Match -> Target)))
  (slot_matches : TimeSlot.t -> Target -> bool)
  (user_message : string) (first : TimeSlot.t) (others : list TimeSlot.t) :
  let message := Text.strip (Text.lower user_message) in
  String.eqb message "1" || Text.contains "primera" message
  || Text.contains "opción 1" message || Text.contains "uno" message = true ->
  parse_slot_selection Match Target time_patterns slot_matches user_message
    (first :: others)
  = Some first.
Proof.
  intros message H. unfold parse_slot_selection. fold message.
  unfold number_patterns. cbn [first_return]. rewrite H. reflexivity.
Qed.

(** "Ninguno" (none of them) contains "uno" and books the first slot. *)
Lemma parse_slot_selection_first_witness :
  parse_slot_selection unit unit [] (fun _ _ => false) "Ninguno"
    [TimeSlot.mk 1 2; TimeSlot.mk 3 4]
  = Some (TimeSlot.mk 1 2).
Proof.
  apply parse_slot_selection_first. vm_compute. reflexivity.
Defined.

(** ** Further properties: emergency detection *)

Lemma string_app_assoc (a b c : string) : (a ++ b) ++ c = a ++ (b ++ c).
Proof.
  induction a as [|x a IH]; [reflexivity|].
  change (String x (((a ++ b) ++ c)) = String x (a ++ (b ++ c))).
  rewrite IH. reflexivity.
Qed.

(** A part of a part is a part. *)
Lemma contains_trans (a b c : string) :
  Text.contains a b = true -> Text.contains b c = true ->
  Text.contains a c = true.
Proof.
  intros Hab Hbc. apply contains_spec in Hab. apply contains_spec in Hbc.
  destruct Hab as (p1 & q1 & ->). destruct Hbc as (p2 & q2 & ->).
  apply contains_spec. exists (p2 ++ p1), (q1 ++ q2).
  rewrite !string_app_assoc. reflexivity.
Qed.

(** X9: a positive detection reports only what it found and never
    escalates by itself.  When a potential emergency is reported,
    confirmation is required, the confidence is 'high' or 'medium', at least
    one term is listed, every listed term occurs in the lowered message and
    comes from the list of the reported confidence, and a report of
    confidence 'medium' has two terms or a message with an exclamation
    mark. *)
Theorem detect_emergency_report (message : string) :
  EmergencyDetection.is_potential_emergency (detect_emergency message)
    = true ->
  EmergencyDetection.requires_confirmation (detect_emergency message) = true
  /\ EmergencyDetection.matched_keywords (detect_emergency message) <> []
  /\ (forall kw,
        In kw (EmergencyDetection.matched_keywords (detect_emergency message)) ->
        Text.contains kw (Text.lower message) = true
        /\ ((EmergencyDetection.confidence (detect_emergency message)
               = Some "high"
             /\ In kw EMERGENCY_KEYWORDS.high)
            \/ (EmergencyDetection.confidence (detect_emergency message)
                  = Some "medium"
                /\ In kw EMERGENCY_KEYWORDS.medium)))
  /\ (EmergencyDetection.confidence (detect_emergency message)
        = Some "medium" ->
      (2 <= length (EmergencyDetection.matched_keywords
                      (detect_emergency message)))%nat
      \/ Text.contains "!" message = true).
Proof.
  unfold detect_emergency.
  set (hs := filter _ EMERGENCY_KEYWORDS.high).
  set (ms := filter _ EMERGENCY_KEYWORDS.medium).
  destruct (nonempty hs) eqn:Eh;
    [| destruct ((2 <=? length ms)%nat
                 || (nonempty ms && Text.contains "!" message)) eqn:Em];
    cbn [EmergencyDetection.is_potential_emergency
         EmergencyDetection.confidence EmergencyDetection.negative
         EmergencyDetection.requires_confirmation
         EmergencyDetection.matched_keywords];
    intros Hpositive; try discriminate Hpositive.
  - split; [reflexivity|].
    split; [intros E; rewrite E in Eh; discriminate Eh|].
    split; [|intros [=]; discriminate].
    intros kw Hin. apply filter_In in Hin. destruct Hin as [Hin Hc].
    split; [exact Hc|]. left. split; [reflexivity | exact Hin].
  - split; [reflexivity|].
    split.
    { intros E. rewrite E in Em. discriminate Em. }
    split.
    + intros kw Hin. apply filter_In in Hin. destruct Hin as [Hin Hc].
      split; [exact Hc|]. right. split; [reflexivity | exact Hin].
    + intros _. apply orb_true_iff in Em. destruct Em as [Em | Em].
      * left. apply Nat.leb_le. exact Em.
      * right. apply andb_true_iff in Em. apply Em.
Qed.

Lemma detect_emergency_report_witness :
  EmergencyDetection.requires_confirmation
    (detect_emergency "Mi perro está MUY MAL, es urgente") = true
  /\ EmergencyDetection.matched_keywords
       (detect_emergency "Mi perro está MUY MAL, es urgente") <> []
  /\ (forall kw,
        In kw (EmergencyDetection.matched_keywords
                 (detect_emergency "Mi perro está MUY MAL, es urgente")) ->
        Text.contains kw (Text.lower "Mi perro está MUY MAL, es urgente")
          = true
        /\ ((EmergencyDetection.confidence
               (detect_emergency "Mi perro está MUY MAL, es urgente")
               = Some "high"
             /\ In kw EMERGENCY_KEYWORDS.high)
            \/ (EmergencyDetection.confidence
                  (detect_emergency "Mi perro está MUY MAL, es urgente")
                  = Some "medium"
                /\ In kw EMERGENCY_KEYWORDS.medium)))
  /\ (EmergencyDetection.confidence
        (detect_emergency "Mi perro está MUY MAL, es urgente")
        = Some "medium" ->
      (2 <= length (EmergencyDetection.matched_keywords
                      (detect_emergency "Mi perro está MUY MAL, es urgente")))%nat
      \/ Text.contains "!" "Mi perro está MUY MAL, es urgente" = true).
Proof.
  apply (detect_emergency_report "Mi perro está MUY MAL, es urgente").
  vm_compute. reflexivity.
Defined.

Lemma nonempty_false_nil {A} (l : list A) : nonempty l = false -> l = [].
Proof. destruct l; [reflexivity | discriminate]. Qed.

(** X10: two entries of the medium list are never reported.  A message
    that contains "vomitando sangre" or "diarrea con sangre" contains the
    high term "sangre", so a detection of confidence 'medium' lists neither
    of them. *)
Theorem detect_emergency_medium_never_blood (message : string) :
  EmergencyDetection.confidence (detect_emergency message) = Some "medium" ->
  ~ In "vomitando sangre"
       (EmergencyDetection.matched_keywords (detect_emergency message))
  /\ ~ In "diarrea con sangre"
          (EmergencyDetection.matched_keywords (detect_emergency message)).
Proof.
  unfold detect_emergency.
  set (hs := filter _ EMERGENCY_KEYWORDS.high).
  set (ms := filter _ EMERGENCY_KEYWORDS.medium).
  destruct (nonempty hs) eqn:Eh;
    [cbn [EmergencyDetection.confidence]; intros [=]; discriminate|].
  apply nonempty_false_nil in Eh.
  assert (Hno : Text.contains "sangre" (Text.lower message) = false).
  { destruct (Text.contains "sangre" (Text.lower message)) eqn:E;
      [|reflexivity].
    assert (Hin : In "sangre" hs).
    { apply filter_In. split; [|exact E].
      unfold EMERGENCY_KEYWORDS.high. cbn [In]. do 12 right. left.
      reflexivity. }
    rewrite Eh in Hin. destruct Hin. }
  assert (Hdead : forall kw, Text.contains "sangre" kw = true -> ~ In kw ms).
  { intros kw Hpart Hin. apply filter_In in Hin. destruct Hin as [_ Hc].
    rewrite (contains_trans _ _ _ Hpart Hc) in Hno. discriminate Hno. }
  destruct ((2 <=? length ms)%nat || (nonempty ms && _));
    cbn [EmergencyDetection.confidence EmergencyDetection.matched_keywords
         EmergencyDetection.negative];
    intros _; split; try (intros []);
    apply Hdead; vm_compute; reflexivity.
Qed.

Lemma detect_emergency_medium_never_blood_witness :
  ~ In "vomitando sangre"
       (EmergencyDetection.matched_keywords
          (detect_emergency "es urgente, ayuda"))
  /\ ~ In "diarrea con sangre"
          (EmergencyDetection.matched_keywords
             (detect_emergency "es urgente, ayuda")).
Proof.
  apply detect_emergency_medium_never_blood. vm_compute. reflexivity.
Defined.

(** ** Further properties: confirmation and escalation *)

(** The alert loop: the contacts before the first unreachable one get the
    text, in order; the loop raises at that one and sends nothing more. *)
Lemma escalation_alert_run
  (format_emergency_alert : EmergencyEvent.t -> Conversation.t -> string)
  (emergency : EmergencyEvent.t) (conversation : Conversation.t) (w : World.t) :
  let contacts :=
    filter (fun c => N.eqb (EscalationContact.clinic_id c)
                       (Conversation.clinic_id conversation))
           (Db.escalation_contacts (World.session w)) in
  escalation_alert format_emergency_alert emergency conversation w
  = (if forallb (fun c => World.reachable w (EscalationContact.phone c))
                contacts
     then inr tt else inl DeliveryError,
     World.mk (World.store w) (World.session w)
       (World.outbox w
        ++ map (fun c => (EscalationContact.phone c,
                          format_emergency_alert emergency conversation))
               (notified (World.reachable w) contacts))%list
       (World.reachable w) (World.now w) (World.next_uuid w)).
Proof.
  intros contacts. unfold escalation_alert, get_escalation_contacts.
  run_monad. fold contacts. clearbody contacts.
  set (text := format_emergency_alert emergency conversation).
  assert (Hw : w = World.mk (World.store w) (World.session w) (World.outbox w)
                 (World.reachable w) (World.now w) (World.next_uuid w))
    by (destruct w; reflexivity).
  rewrite Hw at 1. generalize (World.outbox w) as out. clear Hw.
  induction contacts as [|c rest IH]; intros out.
  - cbn. rewrite app_nil_r. reflexivity.
  - cbn [for_each forallb notified]. rewrite M_bind_run. run_monad.
    rewrite M_bind_run. unfold send_emergency_alert at 1.
    cbn [World.reachable World.store World.session World.outbox World.now
         World.next_uuid].
    destruct (World.reachable w (EscalationContact.phone c)).
    + run_monad. rewrite IH. cbn [andb map].
      rewrite <- app_assoc. reflexivity.
    + cbn [andb map]. rewrite app_nil_r. reflexivity.
Qed.

(** An attribute update by identifier, seen by a lookup. *)
Lemma find_conversation_saved (l : list Conversation.t) (c c' : Conversation.t)
  (i : uuid) :
  find (fun r => N.eqb (Conversation.id r) i) l = Some c ->
  Conversation.id c' = i ->
  find (fun r => N.eqb (Conversation.id r) i)
       (map (fun r => if N.eqb (Conversation.id r) (Conversation.id c')
                      then c' else r) l) = Some c'.
Proof.
  intros Hfind Hid. subst i.
  induction l as [|r l IH]; [discriminate|].
  cbn [find map] in *.
  destruct (N.eqb (Conversation.id r) (Conversation.id c')) eqn:E.
  - rewrite N.eqb_refl. reflexivity.
  - rewrite E. apply IH. exact Hfind.
Qed.

(** One run of the escalation, in full. *)
Lemma execute_emergency_escalation_run
  (format_emergency_alert : EmergencyEvent.t -> Conversation.t -> string)
  (format_emergency_client_response : option Clinic.t -> string)
  (w : World.t) (conversation_id : uuid) (conversation : Conversation.t) :
  find (fun c => N.eqb (Conversation.id c) conversation_id)
       (Db.conversations (World.session w)) = Some conversation ->
  let emergency :=
    EmergencyEvent.mk (World.next_uuid w)
      (Conversation.clinic_id conversation) conversation_id
      (Conversation.client_phone conversation)
      (Conversation.emergency_description conversation)
      (Conversation.emergency_keywords conversation)
      "active" (World.now w) in
  let appointment :=
    Appointment.mk (N.succ (World.next_uuid w))
      (Conversation.clinic_id conversation) None None
      (World.now w) (World.now w + minutes 60)%Z 60
      "EMERGENCIA" "emergency" "whatsapp" None "emergency"
      (Some (World.next_uuid w)) (World.now w) in
  let contacts :=
    filter (fun c => N.eqb (EscalationContact.clinic_id c)
                       (Conversation.clinic_id conversation))
           (Db.escalation_contacts (World.session w)) in
  let sent :=
    map (fun c => (EscalationContact.phone c,
                   format_emergency_alert emergency conversation))
        (notified (World.reachable w) contacts) in
  let recorded :=
    Db.with_appointments (fun l => (l ++ [appointment])%list)
      (Db.with_emergency_events (fun l => (l ++ [emergency])%list)
         (World.session w)) in
  let escalated :=
    Db.with_conversations
      (map (fun r => if N.eqb (Conversation.id r) (Conversation.id conversation)
                     then Conversation.set_emergency_id
                            (Some (World.next_uuid w))
                            (Conversation.set_state ESCALATE conversation)
                     else r)) recorded in
  execute_emergency_escalation format_emergency_alert
    format_emergency_client_response conversation_id w
  = if forallb (fun c => World.reachable w (EscalationContact.phone c))
               contacts
    then (inr (EmergencyAction.mk "escalated" (Some (World.next_uuid w))
                 (format_emergency_client_response
                    (find (fun c => N.eqb (Clinic.id c)
                                      (Conversation.clinic_id conversation))
                          (Db.clinics (World.session w))))),
          World.mk escalated escalated (World.outbox w ++ sent)%list
            (World.reachable w) (World.now w)
            (N.succ (N.succ (World.next_uuid w))))
    else (inl DeliveryError,
          World.mk recorded recorded (World.outbox w ++ sent)%list
            (World.reachable w) (World.now w)
            (N.succ (N.succ (World.next_uuid w)))).
Proof.
  intros Hconv emergency appointment contacts sent recorded escalated.
  unfold execute_emergency_escalation, get_conversation, get_clinic.
  run_monad. rewrite Hconv. run_monad.
  unfold escalation_create_event, create_emergency_slot,
    db.add_emergency_event, db.add_appointment, db.commit.
  run_monad. cbn [World.with_session World.session World.store World.now
                  World.next_uuid World.outbox World.reachable].
  rewrite M_bind_run, escalation_alert_run.
  subst emergency appointment contacts sent recorded escalated.
  cbn [World.session World.store World.now World.next_uuid World.outbox
       World.reachable Db.escalation_contacts Db.with_appointments
       Db.with_emergency_events EmergencyEvent.id].
  match goal with
  | |- context [forallb ?f ?l] => destruct (forallb f l)
  end; [|reflexivity].
  unfold escalation_update_conversation, db.save_conversation, db.commit.
  run_monad. reflexivity.
Qed.

(** X11: when the gateway accepts every alert, the escalation answers
    'escalated' with the identifier of the new event, hands the gateway one
    alert per escalation contact of the clinic, in their order and all with
    the same text, and commits the conversation in ESCALATE, pointing to
    the event. *)
Theorem escalation_all_alerted
  (format_emergency_alert : EmergencyEvent.t -> Conversation.t -> string)
  (format_emergency_client_response : option Clinic.t -> string)
  (w : World.t) (conversation_id : uuid) (conversation : Conversation.t) :
  find (fun c => N.eqb (Conversation.id c) conversation_id)
       (Db.conversations (World.session w)) = Some conversation ->
  let contacts :=
    filter (fun c => N.eqb (EscalationContact.clinic_id c)
                       (Conversation.clinic_id conversation))
           (Db.escalation_contacts (World.session w)) in
  forallb (fun c => World.reachable w (EscalationContact.phone c)) contacts
    = true ->
  exists action emergency w',
    execute_emergency_escalation format_emergency_alert
      format_emergency_client_response conversation_id w = (inr action, w')
    /\ EmergencyAction.action action = "escalated"
    /\ EmergencyAction.emergency_id action = Some (EmergencyEvent.id emergency)
    /\ Db.emergency_events (World.store w')
       = (Db.emergency_events (World.session w) ++ [emergency])%list
    /\ World.outbox w'
       = (World.outbox w
          ++ map (fun c => (EscalationContact.phone c,
                            format_emergency_alert emergency conversation))
                 contacts)%list
    /\ find (fun c => N.eqb (Conversation.id c) conversation_id)
            (Db.conversations (World.store w'))
       = Some (Conversation.set_emergency_id
                 (Some (EmergencyEvent.id emergency))
                 (Conversation.set_state ESCALATE conversation)).
Proof.
  intros Hconv contacts Hall.
  rewrite (execute_emergency_escalation_run _ _ _ _ _ Hconv).
  fold contacts. rewrite Hall.
  set (emergency :=
         EmergencyEvent.mk (World.next_uuid w)
           (Conversation.clinic_id conversation) conversation_id
           (Conversation.client_phone conversation)
           (Conversation.emergency_description conversation)
           (Conversation.emergency_keywords conversation)
           "active" (World.now w)).
  eexists. exists emergency. eexists. split; [reflexivity|].
  split; [reflexivity|]. split; [reflexivity|]. split; [reflexivity|].
  split.
  - cbn [World.outbox]. f_equal. f_equal.
    clear - Hall. induction contacts as [|c rest IH]; [reflexivity|].
    cbn [forallb notified] in *. apply andb_true_iff in Hall.
    destruct Hall as [-> Hrest]. rewrite (IH Hrest). reflexivity.
  - cbn [World.store Db.conversations Db.with_conversations
         Db.with_appointments Db.with_emergency_events EmergencyEvent.id].
    pose proof (find_conversation_saved _ _
                  (Conversation.set_emergency_id (Some (World.next_uuid w))
                     (Conversation.set_state ESCALATE conversation))
                  conversation_id Hconv) as Hsaved.
    cbn [Conversation.id Conversation.set_emergency_id Conversation.set_state]
      in Hsaved.
    apply Hsaved.
    apply N.eqb_eq. exact (proj2 (find_some _ _ Hconv)).
Qed.

Lemma escalation_all_alerted_witness :
  exists action emergency w',
    execute_emergency_escalation Sample.alert_text Sample.reply_text 1
      Sample.world = (inr action, w')
    /\ EmergencyAction.action action = "escalated"
    /\ EmergencyAction.emergency_id action = Some (EmergencyEvent.id emergency)
    /\ Db.emergency_events (World.store w')
       = (Db.emergency_events (World.session Sample.world) ++ [emergency])%list
    /\ World.outbox w'
       = (World.outbox Sample.world
          ++ map (fun c => (EscalationContact.phone c,
                            Sample.alert_text emergency Sample.conversation))
                 (filter (fun c => N.eqb (EscalationContact.clinic_id c)
                                     (Conversation.clinic_id
                                        Sample.conversation))
                         (Db.escalation_contacts
                            (World.session Sample.world))))%list
    /\ find (fun c => N.eqb (Conversation.id c) 1)
            (Db.conversations (World.store w'))
       = Some (Conversation.set_emergency_id
                 (Some (EmergencyEvent.id emergency))
                 (Conversation.set_state ESCALATE Sample.conversation)).
Proof.
  apply (escalation_all_alerted Sample.alert_text Sample.reply_text
           Sample.world 1 Sample.conversation); reflexivity.
Defined.



(** The check for abuse, when it fires. *)
Lemma confirmation_denied_run
  (format_emergency_alert : EmergencyEvent.t -> Conversation.t -> string)
  (format_emergency_client_response : option Clinic.t -> string)
  (w : World.t) (conversation_id : uuid) (user_confirmed : bool)
  (conversation : Conversation.t) (client : Client.t) :
  find (fun c => N.eqb (Conversation.id c) conversation_id)
       (Db.conversations (World.session w)) = Some conversation ->
  find (fun c => String.eqb (Client.phone c)
                   (Conversation.client_phone conversation))
       (Db.clients (World.session w)) = Some client ->
  (1 <= Client.false_emergency_count client)%Z ->
  handle_emergency_confirmation format_emergency_alert
    format_emergency_client_response conversation_id user_confirmed w
  = (inr (EmergencyAction.mk "denied" None denied_message), w).
Proof.
  intros Hconv Hclient Hcount.
  unfold handle_emergency_confirmation, get_conversation, get_client_by_phone.
  run_monad. rewrite Hconv. run_monad. rewrite Hclient.
  destruct (Z.geb_spec (Client.false_emergency_count client) 1) as [_|Hlt];
    [reflexivity | lia].
Qed.

(** The answer NO of a contact that is not flagged. *)
Lemma confirmation_refused_run
  (format_emergency_alert : EmergencyEvent.t -> Conversation.t -> string)
  (format_emergency_client_response : option Clinic.t -> string)
  (w : World.t) (conversation_id : uuid)
  (conversation : Conversation.t) (client : Client.t) :
  find (fun c => N.eqb (Conversation.id c) conversation_id)
       (Db.conversations (World.session w)) = Some conversation ->
  find (fun c => String.eqb (Client.phone c)
                   (Conversation.client_phone conversation))
       (Db.clients (World.session w)) = Some client ->
  (Client.false_emergency_count client < 1)%Z ->
  let counted :=
    Db.with_clients
      (map (fun r => if N.eqb (Client.id r) (Client.id client)
                     then Client.set_false_emergency_count
                            (Client.false_emergency_count client + 1) client
                     else r)) (World.session w) in
  handle_emergency_confirmation format_emergency_alert
    format_emergency_client_response conversation_id false w
  = (inr (EmergencyAction.mk "redirect_to_scheduling" None redirect_message),
     World.mk counted counted (World.outbox w) (World.reachable w)
       (World.now w) (World.next_uuid w)).
Proof.
  intros Hconv Hclient Hcount counted.
  unfold handle_emergency_confirmation, get_conversation, get_client_by_phone.
  run_monad. rewrite Hconv. run_monad. rewrite Hclient.
  destruct (Z.geb_spec (Client.false_emergency_count client) 1) as [Hge|_];
    [lia|].
  cbn [negb]. unfold db.save_client, db.commit. run_monad. reflexivity.
Qed.

Lemma find_client_saved (l : list Client.t) (c c' : Client.t) (p : phone) :
  find (fun r => String.eqb (Client.phone r) p) l = Some c ->
  Client.id c' = Client.id c ->
  Client.phone c' = p ->
  find (fun r => String.eqb (Client.phone r) p)
       (map (fun r => if N.eqb (Client.id r) (Client.id c) then c' else r) l)
  = Some c'.
Proof.
  intros Hfind Hid Hphone.
  induction l as [|r l IH]; [discriminate|].
  cbn [find map] in *.
  destruct (N.eqb (Client.id r) (Client.id c)) eqn:E.
  - rewrite Hphone, String.eqb_refl. reflexivity.
  - destruct (String.eqb (Client.phone r) p).
    + injection Hfind as ->. rewrite N.eqb_refl in E. discriminate E.
    + apply IH. exact Hfind.
Qed.

(** X13: a NO from a contact that has a client record and is not flagged
    is counted and escalates nothing: the answer redirects to scheduling,
    the stored counter of the contact is one higher, and no event, no
    appointment and no message is added. *)
Theorem false_alarm_is_counted
  (format_emergency_alert : EmergencyEvent.t -> Conversation.t -> string)
  (format_emergency_client_response : option Clinic.t -> string)
  (w : World.t) (conversation_id : uuid)
  (conversation : Conversation.t) (client : Client.t) :
  find (fun c => N.eqb (Conversation.id c) conversation_id)
       (Db.conversations (World.session w)) = Some conversation ->
  find (fun c => String.eqb (Client.phone c)
                   (Conversation.client_phone conversation))
       (Db.clients (World.session w)) = Some client ->
  (Client.false_emergency_count client < 1)%Z ->
  exists action w',
    handle_emergency_confirmation format_emergency_alert
      format_emergency_client_response conversation_id false w
      = (inr action, w')
    /\ EmergencyAction.action action = "redirect_to_scheduling"
    /\ option_map Client.false_emergency_count
         (find (fun c => String.eqb (Client.phone c)
                           (Conversation.client_phone conversation))
               (Db.clients (World.store w')))
       = Some (Client.false_emergency_count client + 1)%Z
    /\ Db.emergency_events (World.store w')
       = Db.emergency_events (World.session w)
    /\ Db.appointments (World.store w') = Db.appointments (World.session w)
    /\ World.outbox w' = World.outbox w.
Proof.
  intros Hconv Hclient Hcount.
  rewrite (confirmation_refused_run _ _ _ _ _ _ Hconv Hclient Hcount).
  eexists _, _. split; [reflexivity|]. split; [reflexivity|].
  split; [|repeat split].
  cbn [World.store Db.clients Db.with_clients].
  rewrite (find_client_saved _ client
             (Client.set_false_emergency_count
                (Client.false_emergency_count client + 1) client)
             _ Hclient eq_refl).
  - reflexivity.
  - cbn. apply String.eqb_eq. exact (proj2 (find_some _ _ Hclient)).
Qed.

Lemma false_alarm_is_counted_witness :
  exists action w',
    handle_emergency_confirmation Sample.alert_text Sample.reply_text 1 false
      sample_unflagged_world = (inr action, w')
    /\ EmergencyAction.action action = "redirect_to_scheduling"
    /\ option_map Client.false_emergency_count
         (find (fun c => String.eqb (Client.phone c)
                           (Conversation.client_phone Sample.conversation))
               (Db.clients (World.store w')))
       = Some (0 + 1)%Z
    /\ Db.emergency_events (World.store w')
       = Db.emergency_events (World.session sample_unflagged_world)
    /\ Db.appointments (World.store w')
       = Db.appointments (World.session sample_unflagged_world)
    /\ World.outbox w' = World.outbox sample_unflagged_world.
Proof.
  apply (false_alarm_is_counted Sample.alert_text Sample.reply_text
           sample_unflagged_world 1 Sample.conversation
           (Client.mk 21 10 "+573001112233" (Some "Ana") 0));
    solve [reflexivity | simpl; lia].
Defined.

(** X14: one NO locks the contact out.  For a contact with a client record
    and a counter that is not negative, after the answer NO every further
    confirmation on the conversation, YES as well as NO, is denied and
    changes nothing. *)
Theorem false_alarm_locks_out
  (format_emergency_alert : EmergencyEvent.t -> Conversation.t -> string)
  (format_emergency_client_response : option Clinic.t -> string)
  (w : World.t) (conversation_id : uuid) (user_confirmed : bool)
  (conversation : Conversation.t) (client : Client.t) :
  find (fun c => N.eqb (Conversation.id c) conversation_id)
       (Db.conversations (World.session w)) = Some conversation ->
  find (fun c => String.eqb (Client.phone c)
                   (Conversation.client_phone conversation))
       (Db.clients (World.session w)) = Some client ->
  (0 <= Client.false_emergency_count client)%Z ->
  let w' := snd (handle_emergency_confirmation format_emergency_alert
                   format_emergency_client_response conversation_id false w) in
  handle_emergency_confirmation format_emergency_alert
    format_emergency_client_response conversation_id user_confirmed w'
  = (inr (EmergencyAction.mk "denied" None denied_message), w').
Proof.
  intros Hconv Hclient Hcount.
  destruct (Z_lt_le_dec (Client.false_emergency_count client) 1) as [Hlt|Hge].
  - rewrite (confirmation_refused_run _ _ _ _ _ _ Hconv Hclient Hlt).
    cbn [snd].
    apply (confirmation_denied_run _ _ _ _ _ conversation
             (Client.set_false_emergency_count
                (Client.false_emergency_count client + 1) client)).
    + exact Hconv.
    + cbn [World.session Db.clients Db.with_clients].
      apply (find_client_saved _ client
               (Client.set_false_emergency_count
                  (Client.false_emergency_count client + 1) client)
               _ Hclient eq_refl).
      cbn. apply String.eqb_eq. exact (proj2 (find_some _ _ Hclient)).
    + cbn. lia.
  - rewrite (confirmation_denied_run _ _ _ _ false _ _ Hconv Hclient Hge).
    cbn [snd].
    apply (confirmation_denied_run _ _ _ _ _ _ _ Hconv Hclient Hge).
Qed.

Lemma false_alarm_locks_out_witness :
  let w' := snd (handle_emergency_confirmation Sample.alert_text
                   Sample.reply_text 1 false sample_unflagged_world) in
  handle_emergency_confirmation Sample.alert_text Sample.reply_text 1 true w'
  = (inr (EmergencyAction.mk "denied" None denied_message), w').
Proof.
  apply (false_alarm_locks_out Sample.alert_text Sample.reply_text
           sample_unflagged_world 1 true Sample.conversation
           (Client.mk 21 10 "+573001112233" (Some "Ana") 0));
    solve [reflexivity | simpl; lia].
Defined.

(** X15: a contact without a client record is never counted.  Its NO is
    answered with the redirect and leaves the world exactly as it was, so
    that no number of false alarms flags it. *)
Theorem false_alarm_without_client
  (format_emergency_alert : EmergencyEvent.t -> Conversation.t -> string)
  (format_emergency_client_response : option Clinic.t -> string)
  (w : World.t) (conversation_id : uuid) (conversation : Conversation.t) :
  find (fun c => N.eqb (Conversation.id c) conversation_id)
       (Db.conversations (World.session w)) = Some conversation ->
  find (fun c => String.eqb (Client.phone c)
                   (Conversation.client_phone conversation))
       (Db.clients (World.session w)) = None ->
  handle_emergency_confirmation format_emergency_alert
    format_emergency_client_response conversation_id false w
  = (inr (EmergencyAction.mk "redirect_to_scheduling" None redirect_message),
     w).
Proof.
  intros Hconv Hclient.
  unfold handle_emergency_confirmation, get_conversation, get_client_by_phone.
  run_monad. rewrite Hconv. run_monad. rewrite Hclient. reflexivity.
Qed.

Lemma false_alarm_without_client_witness :
  handle_emergency_confirmation Sample.alert_text Sample.reply_text 1 false
    Sample.world
  = (inr (EmergencyAction.mk "redirect_to_scheduling" None redirect_message),
     Sample.world).
Proof.
  apply (false_alarm_without_client Sample.alert_text Sample.reply_text
           Sample.world 1 Sample.conversation); reflexivity.
Defined.

(** X16: a YES from a contact that is not flagged (no client record, or a
    counter below one) runs the escalation: one active event for the
    conversation and one appointment that points to it are committed. *)
Theorem confirmed_emergency_escalates
  (format_emergency_alert : EmergencyEvent.t -> Conversation.t -> string)
  (format_emergency_client_response : option Clinic.t -> string)
  (w : World.t) (conversation_id : uuid) (conversation : Conversation.t) :
  World.session w = World.store w ->
  find (fun c => N.eqb (Conversation.id c) conversation_id)
       (Db.conversations (World.session w)) = Some conversation ->
  match find (fun c => String.eqb (Client.phone c)
                         (Conversation.client_phone conversation))
             (Db.clients (World.session w)) with
  | Some client => (Client.false_emergency_count client < 1)%Z
  | None => True
  end ->
  exists r w' emergency appointment,
    handle_emergency_confirmation format_emergency_alert
      format_emergency_client_response conversation_id true w = (r, w')
    /\ r <> inr (EmergencyAction.mk "denied" None denied_message)
    /\ Db.emergency_events (World.store w')
       = (Db.emergency_events (World.store w) ++ [emergency])%list
    /\ EmergencyEvent.conversation_id emergency = conversation_id
    /\ EmergencyEvent.status emergency = "active"
    /\ Db.appointments (World.store w')
       = (Db.appointments (World.store w) ++ [appointment])%list
    /\ Appointment.emergency_id appointment
       = Some (EmergencyEvent.id emergency).
Proof.
  intros Hclean Hconv Hclient.
  assert (Hrun : handle_emergency_confirmation format_emergency_alert
                   format_emergency_client_response conversation_id true w
                 = execute_emergency_escalation format_emergency_alert
                     format_emergency_client_response conversation_id w).
  { unfold handle_emergency_confirmation, get_conversation,
      get_client_by_phone.
    run_monad. rewrite Hconv. run_monad.
    destruct (find _ (Db.clients (World.session w))) as [client|].
    - destruct (Z.geb_spec (Client.false_emergency_count client) 1);
        [lia | reflexivity].
    - reflexivity. }
  rewrite Hrun.
  rewrite (execute_emergency_escalation_run _ _ _ _ _ Hconv).
  destruct (forallb _ _);
    eexists _, _, _, _; (split; [reflexivity|]);
    (split; [discriminate|]); cbn; rewrite Hclean; repeat split.
Qed.

Lemma confirmed_emergency_escalates_witness :
  exists r w' emergency appointment,
    handle_emergency_confirmation Sample.alert_text Sample.reply_text 1 true
      Sample.world = (r, w')
    /\ r <> inr (EmergencyAction.mk "denied" None denied_message)
    /\ Db.emergency_events (World.store w')
       = (Db.emergency_events (World.store Sample.world) ++ [emergency])%list
    /\ EmergencyEvent.conversation_id emergency = 1%N
    /\ EmergencyEvent.status emergency = "active"
    /\ Db.appointments (World.store w')
       = (Db.appointments (World.store Sample.world) ++ [appointment])%list
    /\ Appointment.emergency_id appointment
       = Some (EmergencyEvent.id emergency).
Proof.
  apply (confirmed_emergency_escalates Sample.alert_text Sample.reply_text
           Sample.world 1 Sample.conversation);
    solve [reflexivity | exact I].
Defined.

(** ** Further properties: follow-ups *)









(** ** Further properties: follow-up response analysis *)

(** X18: a match of one of the follow-up's own escalation keywords forces
    the escalation: the answer is 'concern', requires escalation and
    recommends alerting the vet, however many reassuring words the reply
    has; the analysis writes nothing. *)
Theorem analysis_keyword_forces_escalation
  (w : World.t) (follow_up_id : uuid) (follow_up : FollowUp.t)
  (response_message kw : string) :
  find (fun f => N.eqb (FollowUp.id f) follow_up_id)
       (Db.follow_ups (World.session w)) = Some follow_up ->
  In kw (FollowUp.escalation_keywords follow_up) ->
  Text.contains kw (Text.lower response_message) = true ->
  exists analysis,
    analyze_follow_up_response follow_up_id response_message w
      = (inr analysis, w)
    /\ FollowUpAnalysis.status analysis = "concern"
    /\ FollowUpAnalysis.requires_escalation analysis = true
    /\ FollowUpAnalysis.recommendation analysis = "alert_vet"
    /\ In kw (FollowUpAnalysis.matched_keywords analysis).
Proof.
  intros Hfind Hkw Hc.
  unfold analyze_follow_up_response, get_follow_up. run_monad.
  rewrite Hfind. run_monad.
  set (matched := filter _ (FollowUp.escalation_keywords follow_up)).
  assert (Hin : In kw matched) by (apply filter_In; split; assumption).
  rewrite (nonempty_In _ _ Hin). cbn [orb]. run_monad.
  eexists. split; [reflexivity|].
  cbn [FollowUpAnalysis.status FollowUpAnalysis.requires_escalation
       FollowUpAnalysis.recommendation FollowUpAnalysis.matched_keywords].
  repeat split; try assumption.
  destruct matched; [destruct Hin | reflexivity].
Qed.

(** X19: feelings alone never escalate.  When no escalation keyword of the
    follow-up occurs in the lowered reply, the analysis does not require an
    escalation: it answers 'concern' with the advice to monitor when the
    negative words outnumber the positive ones, and 'normal' otherwise. *)
Theorem analysis_sentiment_never_escalates
  (w : World.t) (follow_up_id : uuid) (follow_up : FollowUp.t)
  (response_message : string) :
  find (fun f => N.eqb (FollowUp.id f) follow_up_id)
       (Db.follow_ups (World.session w)) = Some follow_up ->
  filter (fun kw => Text.contains kw (Text.lower response_message))
         (FollowUp.escalation_keywords follow_up) = [] ->
  exists analysis,
    analyze_follow_up_response follow_up_id response_message w
      = (inr analysis, w)
    /\ FollowUpAnalysis.requires_escalation analysis = false
    /\ FollowUpAnalysis.matched_keywords analysis = []
    /\ ((count_indicators positive_indicators (Text.lower response_message)
         < count_indicators negative_indicators (Text.lower response_message))%nat
        -> FollowUpAnalysis.status analysis = "concern"
           /\ FollowUpAnalysis.recommendation analysis = "monitor")
    /\ ((count_indicators negative_indicators (Text.lower response_message)
         <= count_indicators positive_indicators (Text.lower response_message))%nat
        -> FollowUpAnalysis.status analysis = "normal"
           /\ FollowUpAnalysis.recommendation analysis = "continue_protocol").
Proof.
  intros Hfind Hnone.
  unfold analyze_follow_up_response, get_follow_up. run_monad.
  rewrite Hfind. run_monad.
  rewrite Hnone. cbn [nonempty orb length].
  destruct (Nat.ltb_spec
              (count_indicators positive_indicators (Text.lower response_message))
              (count_indicators negative_indicators (Text.lower response_message)))
    as [Hlt|Hge]; run_monad;
    (eexists; split; [reflexivity|]);
    cbn [FollowUpAnalysis.status FollowUpAnalysis.requires_escalation
         FollowUpAnalysis.recommendation FollowUpAnalysis.matched_keywords];
    repeat split; try reflexivity; intros; lia.
Qed.

Lemma analysis_keyword_forces_escalation_witness :
  exists analysis,
    analyze_follow_up_response 40 "Esta bien y tranquilo, pero tiene FIEBRE"
      SampleFollowUps.world = (inr analysis, SampleFollowUps.world)
    /\ FollowUpAnalysis.status analysis = "concern"
    /\ FollowUpAnalysis.requires_escalation analysis = true
    /\ FollowUpAnalysis.recommendation analysis = "alert_vet"
    /\ In "fiebre" (FollowUpAnalysis.matched_keywords analysis).
Proof.
  apply (analysis_keyword_forces_escalation SampleFollowUps.world 40
           SampleFollowUps.due_row).
  - reflexivity.
  - right. left. reflexivity.
  - vm_compute. reflexivity.
Defined.

Lemma analysis_sentiment_never_escalates_witness :
  exists analysis,
    analyze_follow_up_response 40 "Sigue muy mal, me preocupa"
      SampleFollowUps.world = (inr analysis, SampleFollowUps.world)
    /\ FollowUpAnalysis.requires_escalation analysis = false
    /\ FollowUpAnalysis.matched_keywords analysis = []
    /\ ((count_indicators positive_indicators
           (Text.lower "Sigue muy mal, me preocupa")
         < count_indicators negative_indicators
             (Text.lower "Sigue muy mal, me preocupa"))%nat
        -> FollowUpAnalysis.status analysis = "concern"
           /\ FollowUpAnalysis.recommendation analysis = "monitor")
    /\ ((count_indicators negative_indicators
           (Text.lower "Sigue muy mal, me preocupa")
         <= count_indicators positive_indicators
              (Text.lower "Sigue muy mal, me preocupa"))%nat
        -> FollowUpAnalysis.status analysis = "normal"
           /\ FollowUpAnalysis.recommendation analysis = "continue_protocol").
Proof.
  apply (analysis_sentiment_never_escalates SampleFollowUps.world 40
           SampleFollowUps.due_row).
  - reflexivity.
  - vm_compute. reflexivity.
Defined.

(** The reply of the document ("se queja cuando camina") has no keyword of
    the row and more positive than negative words: it is normal.  A reply
    "no mejora" counts "mejor" as well and is normal too. *)
Example analysis_samples :
  option_map FollowUpAnalysis.status
    (match fst (analyze_follow_up_response 40
                  "Bien, está comiendo normal pero se queja cuando camina"
                  SampleFollowUps.world)
     with inr a => Some a | inl _ => None end) = Some "normal"
  /\ option_map FollowUpAnalysis.status
       (match fst (analyze_follow_up_response 40 "No mejora"
                     SampleFollowUps.world)
        with inr a => Some a | inl _ => None end) = Some "normal".
Proof. vm_compute. split; reflexivity. Qed.

(** ** Further properties: the follow-up processor *)

Lemma P_bind_run {A B} (c : P A) (k : A -> P B) s :
  P_bind c k s
  = match c s with
    | (inl e, s') => (inl e, s')
    | (inr a, s') => k a s'
    end.
Proof. reflexivity. Qed.

Ltac run_processor :=
  cbn [bind ret Monad_P P_bind P_ret lift update_columns commit_all
       try_except gets deref raise update_session utcnow uuid4 get_client
       get_pet add_conversation save_follow_up db.commit
       M_ret M_bind Processor.world Processor.columns
       Processor.stored_columns World.session World.store World.outbox
       World.reachable World.now World.next_uuid World.with_session
       fst snd].

(** The body of the loop computes [iteration] and never raises. *)
Lemma loop_body_run
  (str_format : string -> string -> string -> exn + string)
  (now : datetime) (f : FollowUp.t) (s : Processor.t) :
  (try_except
     (send_follow_up str_format f ;;
      lift (save_follow_up (follow_up_with_status "sent" f)) ;;
      update_columns (fun k =>
        Columns.mk (Columns.sent_at k ++ [(FollowUp.id f, now)])%list
                   (Columns.error k) (Columns.started_at k)))
     (fun e =>
      lift (save_follow_up (follow_up_with_status "failed" f)) ;;
      update_columns (fun k =>
        Columns.mk (Columns.sent_at k)
                   (Columns.error k ++ [(FollowUp.id f, e)])%list
                   (Columns.started_at k))) ;;
   commit_all) s
  = (inr tt, iteration str_format now f s).
Proof.
  destruct s as [w k ks].
  unfold iteration, prepared, send_follow_up.
  cbn [bind ret Monad_P].
  unfold P_bind, try_except, lift, commit_all, update_columns, P_ret,
    get_client, get_pet, gets, deref, M_ret, raise, uuid4, utcnow,
    add_conversation, save_follow_up, update_session, whatsapp_send,
    db.commit.
  cbn [Processor.world Processor.columns Processor.stored_columns
       World.session World.store World.outbox World.reachable World.now
       World.next_uuid World.with_session fst snd].
  destruct (match FollowUp.client_id f with
            | Some i => find (fun c => N.eqb (Client.id c) i)
                             (Db.clients (World.session w))
            | None => None
            end) as [c|] eqn:Ec.
  2:{ destruct (FollowUp.pet_id f); reflexivity. }
  destruct (FollowUp.pet_id f) as [i|];
    (destruct (str_format _ _ _) as [e|m]; [reflexivity|]);
    cbn [Processor.world Processor.columns Processor.stored_columns
         World.session World.store World.outbox World.reachable World.now
         World.next_uuid World.with_session fst snd];
    (destruct (World.reachable w (Client.phone c)) eqn:Er;
     cbn; rewrite ?Er; reflexivity).
Qed.

(** The loop is the iterations one after the other. *)
Lemma for_each_P_iteration
  (str_format : string -> string -> string -> exn + string)
  (now : datetime) (pending : list FollowUp.t) :
  forall s,
    for_each_P pending (fun follow_up =>
      try_except
        (send_follow_up str_format follow_up ;;
         lift (save_follow_up (follow_up_with_status "sent" follow_up)) ;;
         update_columns (fun k =>
           Columns.mk
             (Columns.sent_at k ++ [(FollowUp.id follow_up, now)])%list
             (Columns.error k) (Columns.started_at k)))
        (fun e =>
         lift (save_follow_up (follow_up_with_status "failed" follow_up)) ;;
         update_columns (fun k =>
           Columns.mk (Columns.sent_at k)
             (Columns.error k ++ [(FollowUp.id follow_up, e)])%list
             (Columns.started_at k))) ;;
      commit_all) s
    = (inr tt, fold_left (fun s f => iteration str_format now f s) pending s).
Proof.
  induction pending as [|f rest IH]; intros s; [reflexivity|].
  cbn [for_each_P fold_left]. rewrite P_bind_run, loop_body_run. apply IH.
Qed.

(** The processor never raises; it is the iterations over the follow-ups
    that are due, in the order of the table. *)
Lemma process_pending_follow_ups_run
  (str_format : string -> string -> string -> exn + string)
  (s : Processor.t) :
  process_pending_follow_ups str_format s
  = (inr tt,
     fold_left
       (fun s' f =>
          iteration str_format (World.now (Processor.world s)) f s')
       (filter (due (World.now (Processor.world s)))
               (Db.follow_ups (World.session (Processor.world s))))
       s).
Proof.
  unfold process_pending_follow_ups.
  destruct s as [w k ks]. run_processor.
  apply for_each_P_iteration.
Qed.

Lemma prepared_stable
  (str_format : string -> string -> string -> exn + string)
  (d d' : Db.t) (f : FollowUp.t) :
  Db.clients d' = Db.clients d -> Db.pets d' = Db.pets d ->
  prepared str_format d' f = prepared str_format d f.
Proof. intros Hc Hp. unfold prepared. rewrite Hc, Hp. reflexivity. Qed.

(** One iteration: what it keeps and what it adds. *)
Lemma iteration_effect
  (str_format : string -> string -> string -> exn + string)
  (now : datetime) (f : FollowUp.t) (s : Processor.t) :
  let w := Processor.world s in
  let w' := Processor.world (iteration str_format now f s) in
  Db.clients (World.session w') = Db.clients (World.session w)
  /\ Db.pets (World.session w') = Db.pets (World.session w)
  /\ World.reachable w' = World.reachable w
  /\ World.now w' = World.now w
  /\ World.store w' = World.session w'
  /\ Db.follow_ups (World.session w')
     = replace_follow_up
         (follow_up_with_status
            (outcome str_format (World.session w) (World.reachable w) f) f)
         (Db.follow_ups (World.session w))
  /\ World.outbox w'
     = (World.outbox w
        ++ delivery str_format (World.session w) (World.reachable w) f)%list
  /\ map conversation_summary (Db.conversations (World.session w'))
     = (map conversation_summary (Db.conversations (World.session w))
        ++ map (fun x => (Some (fst x), snd x, COLLECT_STATUS, "follow_up"))
               (opening str_format (World.session w) f))%list.
Proof.
  intros w w'. subst w w'.
  unfold iteration, outcome, delivery, opening.
  destruct (prepared str_format (World.session (Processor.world s)) f)
    as [e|[p m]].
  - cbn. rewrite !app_nil_r. repeat split.
  - destruct (World.reachable (Processor.world s) p); cbn;
      rewrite ?app_nil_r, ?map_app; repeat split.
Qed.

Lemma find_none_by_id (l : list FollowUp.t) (i : uuid) :
  ~ In i (map FollowUp.id l) ->
  find (fun g => N.eqb i (FollowUp.id g)) l = None.
Proof.
  induction l as [|g l IH]; [reflexivity|].
  cbn [map In find]. intros H.
  destruct (N.eqb_spec i (FollowUp.id g)) as [E|_].
  - exfalso. apply H. left. symmetry. exact E.
  - apply IH. intros Hin. apply H. right. exact Hin.
Qed.

(** The iterations over a list of follow-ups, one after the other. *)
Lemma iterations_effect
  (str_format : string -> string -> string -> exn + string)
  (now : datetime) (l : list FollowUp.t) :
  forall s,
    let w := Processor.world s in
    let w' := Processor.world
                (fold_left (fun s' f => iteration str_format now f s') l s) in
    Db.clients (World.session w') = Db.clients (World.session w)
    /\ Db.pets (World.session w') = Db.pets (World.session w)
    /\ World.reachable w' = World.reachable w
    /\ World.now w' = World.now w
    /\ (World.store w = World.session w \/ l <> [] ->
        World.store w' = World.session w')
    /\ World.outbox w'
       = (World.outbox w
          ++ flat_map (delivery str_format (World.session w)
                         (World.reachable w)) l)%list
    /\ map conversation_summary (Db.conversations (World.session w'))
       = (map conversation_summary (Db.conversations (World.session w))
          ++ flat_map
               (fun f =>
                  map (fun x => (Some (fst x), snd x, COLLECT_STATUS,
                                 "follow_up"))
                      (opening str_format (World.session w) f)) l)%list
    /\ (NoDup (map FollowUp.id l) ->
        Db.follow_ups (World.session w')
        = map (fun r =>
                 match find (fun g => N.eqb (FollowUp.id r) (FollowUp.id g)) l
                 with
                 | Some g =>
                     follow_up_with_status
                       (outcome str_format (World.session w)
                          (World.reachable w) g) g
                 | None => r
                 end)
              (Db.follow_ups (World.session w))).
Proof.
  induction l as [|f rest IH]; intros s w w'; subst w w'.
  - cbn [fold_left flat_map find]. rewrite !app_nil_r, map_id.
    repeat split. intros [H | H]; [exact H | contradiction].
  - cbn [fold_left flat_map].
    destruct (iteration_effect str_format now f s)
      as (Hc & Hp & Hr & Hn & Hs & Hf & Ho & Hv).
    destruct (IH (iteration str_format now f s))
      as (Hc' & Hp' & Hr' & Hn' & Hs' & Ho' & Hv' & Hf').
    set (s1 := iteration str_format now f s) in *.
    assert (Hprep : forall g,
               prepared str_format (World.session (Processor.world s1)) g
               = prepared str_format (World.session (Processor.world s)) g)
      by (intros g; apply prepared_stable; assumption).
    split; [congruence|]. split; [congruence|]. split; [congruence|].
    split; [congruence|].
    split; [intros _; apply Hs'; left; exact Hs|].
    split.
    { rewrite Ho', Ho, <- app_assoc. f_equal. f_equal.
      apply flat_map_ext. intros g. unfold delivery.
      rewrite Hprep, Hr. reflexivity. }
    split.
    { rewrite Hv', Hv, <- app_assoc. f_equal. f_equal.
      apply flat_map_ext. intros g. unfold opening.
      rewrite Hprep. reflexivity. }
    intros Hnd. cbn [map] in Hnd. inversion Hnd as [|? ? Hnotin Hnd']; subst.
    rewrite (Hf' Hnd'), Hf. unfold replace_follow_up. rewrite map_map.
    apply map_ext. intros r. cbn [find].
    assert (Hout : forall g,
               outcome str_format (World.session (Processor.world s1))
                 (World.reachable (Processor.world s1)) g
               = outcome str_format (World.session (Processor.world s))
                   (World.reachable (Processor.world s)) g).
    { intros g. unfold outcome. rewrite Hprep, Hr. reflexivity. }
    cbv beta. cbn [FollowUp.id follow_up_with_status].
    destruct (N.eqb (FollowUp.id r) (FollowUp.id f)).
    + cbn [FollowUp.id follow_up_with_status].
      rewrite (find_none_by_id rest (FollowUp.id f) Hnotin). reflexivity.
    + destruct (find _ rest) as [g|]; [rewrite Hout|]; reflexivity.
Qed.

Lemma distinct_NoDup (l : list uuid) : distinct l = true -> NoDup l.
Proof.
  induction l as [|x l IH]; cbn [distinct]; [constructor|].
  intros H. apply andb_true_iff in H. destruct H as [Hx Hl].
  constructor; [|apply IH; exact Hl].
  intros Hin. apply negb_true_iff in Hx.
  assert (E : existsb (N.eqb x) l = true)
    by (apply existsb_exists; exists x; split; [exact Hin | apply N.eqb_refl]).
  congruence.
Qed.

Lemma NoDup_ids_filter (p : FollowUp.t -> bool) (rows : list FollowUp.t) :
  NoDup (map FollowUp.id rows) -> NoDup (map FollowUp.id (filter p rows)).
Proof.
  induction rows as [|r rows IH]; cbn [map filter]; [constructor|].
  intros H. inversion H as [|? ? Hnotin Hrest]; subst.
  destruct (p r); [|apply IH; exact Hrest].
  cbn [map]. constructor; [|apply IH; exact Hrest].
  intros Hin. apply Hnotin. apply in_map_iff in Hin.
  destruct Hin as (g & Hg & Hin). apply filter_In in Hin.
  apply in_map_iff. exists g. split; [exact Hg | apply Hin].
Qed.

(** With distinct identifiers, a row is found among the selected rows
    exactly when it is selected. *)
Lemma find_selected_row (p : FollowUp.t -> bool) (rows : list FollowUp.t)
  (r : FollowUp.t) :
  NoDup (map FollowUp.id rows) -> In r rows ->
  find (fun g => N.eqb (FollowUp.id r) (FollowUp.id g)) (filter p rows)
  = if p r then Some r else None.
Proof.
  induction rows as [|h rows IH]; [intros _ []|].
  cbn [map filter]. intros Hnd Hin.
  inversion Hnd as [|? ? Hnotin Hrest]; subst.
  assert (Hother : forall g, In g rows -> FollowUp.id g <> FollowUp.id h).
  { intros g Hg E. apply Hnotin. rewrite <- E. apply in_map. exact Hg. }
  destruct Hin as [-> | Hin].
  - destruct (p r) eqn:Ep.
    + cbn [find]. rewrite N.eqb_refl. reflexivity.
    + apply find_none_by_id. intros Hid. apply Hnotin.
      apply in_map_iff in Hid. destruct Hid as (g & Hg & Hgin).
      apply filter_In in Hgin. apply in_map_iff. exists g.
      split; [exact Hg | apply Hgin].
  - destruct (p h).
    + cbn [find]. destruct (N.eqb_spec (FollowUp.id r) (FollowUp.id h)) as [E|_].
      * exfalso. exact (Hother r Hin E).
      * apply IH; assumption.
    + apply IH; assumption.
Qed.

Lemma settled_not_due
  (str_format : string -> string -> string -> exn + string)
  (d : Db.t) (reachable : phone -> bool) (now t : datetime) (r : FollowUp.t) :
  due now r = true ->
  due t (settled str_format d reachable now r) = false.
Proof.
  intros Hdue. unfold settled. rewrite Hdue. unfold due, outcome.
  cbn [FollowUp.status follow_up_with_status].
  destruct (prepared str_format d r) as [e|[p m]];
    [|destruct (reachable p)]; reflexivity.
Qed.

(** The rows after a run of the processor. *)
Lemma processor_rows
  (str_format : string -> string -> string -> exn + string)
  (s : Processor.t) :
  let w := Processor.world s in
  NoDup (map FollowUp.id (Db.follow_ups (World.session w))) ->
  Db.follow_ups
    (World.session
       (Processor.world (snd (process_pending_follow_ups str_format s))))
  = map (settled str_format (World.session w) (World.reachable w)
           (World.now w))
        (Db.follow_ups (World.session w)).
Proof.
  intros w Hnd. rewrite process_pending_follow_ups_run. cbn [snd].
  destruct (iterations_effect str_format (World.now w)
              (filter (due (World.now w)) (Db.follow_ups (World.session w))) s)
    as (_ & _ & _ & _ & _ & _ & _ & Hrows).
  fold w in Hrows |- *. rewrite (Hrows (NoDup_ids_filter _ _ Hnd)).
  apply map_ext_in. intros r Hin.
  rewrite (find_selected_row _ _ _ Hnd Hin). unfold settled.
  destruct (due (World.now w) r); reflexivity.
Qed.

(** X20: a run of the processor settles every follow-up that is due and
    touches no other.  With distinct row identifiers and nothing
    uncommitted, the run never raises; afterwards each stored row that was
    pending with its time reached has status 'sent' (its message was
    prepared and the gateway took it) or 'failed', every other row is as it
    was, and no row is due any more. *)
Theorem processor_settles_due_rows
  (str_format : string -> string -> string -> exn + string)
  (s : Processor.t) :
  let w := Processor.world s in
  distinct (map FollowUp.id (Db.follow_ups (World.session w))) = true ->
  World.store w = World.session w ->
  let s' := snd (process_pending_follow_ups str_format s) in
  fst (process_pending_follow_ups str_format s) = inr tt
  /\ Db.follow_ups (World.store (Processor.world s'))
     = map (settled str_format (World.session w) (World.reachable w)
              (World.now w))
           (Db.follow_ups (World.session w))
  /\ (forall r, In r (Db.follow_ups (World.session w)) ->
        due (World.now w) r = true ->
        FollowUp.status
          (settled str_format (World.session w) (World.reachable w)
             (World.now w) r) = "sent"
        \/ FollowUp.status
             (settled str_format (World.session w) (World.reachable w)
                (World.now w) r) = "failed")
  /\ Forall (fun r => forall t, (t <= World.now w)%Z -> due t r = false)
            (Db.follow_ups (World.store (Processor.world s'))).
Proof.
  intros w Hdistinct Hclean s'. apply distinct_NoDup in Hdistinct.
  assert (Hstore : World.store (Processor.world s')
                   = World.session (Processor.world s')).
  { subst s'. rewrite process_pending_follow_ups_run. cbn [snd].
    apply (iterations_effect str_format (World.now w) _ s).
    left. exact Hclean. }
  split; [rewrite process_pending_follow_ups_run; reflexivity|].
  rewrite Hstore. subst s'. rewrite (processor_rows str_format s Hdistinct).
  fold w. split; [reflexivity|]. split.
  - intros r _ Hdue. unfold settled. rewrite Hdue. unfold outcome.
    cbn [FollowUp.status follow_up_with_status].
    destruct (prepared str_format (World.session w) r) as [e|[p m]];
      [|destruct (World.reachable w p)]; auto.
  - apply Forall_forall. intros r' Hin t Ht.
    apply in_map_iff in Hin. destruct Hin as (r & <- & Hin).
    destruct (due (World.now w) r) eqn:Hdue.
    + apply settled_not_due. exact Hdue.
    + unfold settled. rewrite Hdue. unfold due in *.
      destruct (String.eqb (FollowUp.status r) "pending"); [|reflexivity].
      cbn [andb] in *. apply Z.leb_gt in Hdue. apply Z.leb_gt. lia.
Qed.

Lemma processor_settles_due_rows_witness :
  let s := Processor.start SampleFollowUps.world in
  let w := SampleFollowUps.world in
  let s' := snd (process_pending_follow_ups SampleFollowUps.format s) in
  fst (process_pending_follow_ups SampleFollowUps.format s) = inr tt
  /\ Db.follow_ups (World.store (Processor.world s'))
     = map (settled SampleFollowUps.format (World.session w)
              (World.reachable w) (World.now w))
           (Db.follow_ups (World.session w))
  /\ (forall r, In r (Db.follow_ups (World.session w)) ->
        due (World.now w) r = true ->
        FollowUp.status
          (settled SampleFollowUps.format (World.session w)
             (World.reachable w) (World.now w) r) = "sent"
        \/ FollowUp.status
             (settled SampleFollowUps.format (World.session w)
                (World.reachable w) (World.now w) r) = "failed")
  /\ Forall (fun r => forall t, (t <= World.now w)%Z -> due t r = false)
            (Db.follow_ups (World.store (Processor.world s'))).
Proof.
  apply (processor_settles_due_rows SampleFollowUps.format
           (Processor.start SampleFollowUps.world)); reflexivity.
Defined.

(** On the sample rows: the due one is sent, the one without a client has
    failed, the later one is still pending and the sent one is untouched;
    one message went out and one conversation was opened. *)
Example processor_sample_run :
  let s' := snd (process_pending_follow_ups SampleFollowUps.format
                   (Processor.start SampleFollowUps.world)) in
  map FollowUp.status (Db.follow_ups (World.store (Processor.world s')))
  = ["sent"; "failed"; "pending"; "sent"]
  /\ World.outbox (Processor.world s')
     = [("+573004445566", "Hola, como sigue {pet_name}? tu mascota")]
  /\ map conversation_summary
         (skipn 2 (Db.conversations (World.store (Processor.world s'))))
     = [(Some 40%N, "+573004445566", COLLECT_STATUS, "follow_up")]
  /\ Columns.error (Processor.stored_columns s') = [(41%N, AttributeError)]
  /\ Columns.sent_at (Processor.stored_columns s')
     = [(40%N, World.now SampleFollowUps.world)].
Proof. vm_compute. repeat split. Qed.

(** The rows of the table keep their identifiers when they are settled. *)
Lemma settled_id
  (str_format : string -> string -> string -> exn + string)
  (d : Db.t) (reachable : phone -> bool) (now : datetime) (r : FollowUp.t) :
  FollowUp.id (settled str_format d reachable now r) = FollowUp.id r.
Proof. unfold settled. destruct (due now r); reflexivity. Qed.

(** After a run at [now], the rows due at a time [t] are the rows due at
    [t] that were not due at [now]: a row the run has settled is never due
    again. *)
Lemma settled_rows_due
  (str_format : string -> string -> string -> exn + string)
  (d : Db.t) (reachable : phone -> bool) (now t : datetime)
  (rows : list FollowUp.t) :
  filter (due t) (map (settled str_format d reachable now) rows)
  = filter (fun r => negb (due now r) && due t r) rows.
Proof.
  induction rows as [|r rows IH]; [reflexivity|].
  cbn [map filter]. rewrite IH.
  destruct (due now r) eqn:Hdue; cbn [negb andb].
  - rewrite (settled_not_due str_format d reachable now t r Hdue).
    reflexivity.
  - unfold settled. rewrite Hdue. reflexivity.
Qed.

(** What a run leaves for the next one. *)
Lemma processor_leaves
  (str_format : string -> string -> string -> exn + string)
  (s : Processor.t) :
  let w := Processor.world s in
  let w1 := Processor.world (snd (process_pending_follow_ups str_format s)) in
  Db.clients (World.session w1) = Db.clients (World.session w)
  /\ Db.pets (World.session w1) = Db.pets (World.session w)
  /\ World.reachable w1 = World.reachable w.
Proof.
  intros w w1. subst w1. rewrite process_pending_follow_ups_run. cbn [snd].
  destruct (iterations_effect str_format (World.now w)
              (filter (due (World.now w)) (Db.follow_ups (World.session w))) s)
    as (Hc & Hp & Hr & _).
  repeat split; assumption.
Qed.

(** X21: the processor does not process a follow-up twice, whenever the
    next run comes.  After a run at the time [now], a run at any time [t]
    finds due only rows that were not due at [now]; it sends the messages
    of those rows and no other, and it leaves every row that the first run
    settled as the first run left it. *)
Theorem processor_never_repeats
  (str_format : string -> string -> string -> exn + string)
  (s : Processor.t) (t : datetime) :
  let w := Processor.world s in
  let rows := Db.follow_ups (World.session w) in
  distinct (map FollowUp.id rows) = true ->
  let s1 := snd (process_pending_follow_ups str_format s) in
  let s2 := snd (process_pending_follow_ups str_format
                   (Processor.at_time t s1)) in
  filter (due t) (Db.follow_ups (World.session (Processor.world s1)))
  = filter (fun r => negb (due (World.now w) r) && due t r) rows
  /\ World.outbox (Processor.world s2)
     = (World.outbox (Processor.world s1)
        ++ flat_map (delivery str_format (World.session w) (World.reachable w))
             (filter (fun r => negb (due (World.now w) r) && due t r)
                     rows))%list
  /\ Db.follow_ups (World.session (Processor.world s2))
     = map (fun r =>
              if due (World.now w) r
              then settled str_format (World.session w) (World.reachable w)
                     (World.now w) r
              else settled str_format (World.session w) (World.reachable w)
                     t r)
           rows.
Proof.
  intros w rows Hdistinct s1 s2. apply distinct_NoDup in Hdistinct.
  pose proof (processor_rows str_format s Hdistinct) as Hrows1.
  destruct (processor_leaves str_format s) as (Hc & Hp & Hr).
  fold w s1 in Hrows1, Hc, Hp, Hr. fold rows in Hrows1.
  set (w1 := Processor.world s1) in *.
  assert (Hdue : filter (due t) (Db.follow_ups (World.session w1))
                 = filter (fun r => negb (due (World.now w) r) && due t r)
                          rows)
    by (rewrite Hrows1; apply settled_rows_due).
  assert (Hprep : forall g,
             prepared str_format (World.session w1) g
             = prepared str_format (World.session w) g)
    by (intros g; apply prepared_stable; assumption).
  split; [exact Hdue|]. split.
  - subst s2. rewrite process_pending_follow_ups_run. cbn [snd].
    destruct (iterations_effect str_format t
                (filter (due t) (Db.follow_ups (World.session w1)))
                (Processor.at_time t s1))
      as (_ & _ & _ & _ & _ & Hout & _).
    cbn [Processor.at_time Processor.world World.now World.session
         World.outbox World.reachable] in Hout |- *.
    fold w1 in Hout |- *. rewrite Hout, Hdue. f_equal.
    apply flat_map_ext. intros g. unfold delivery.
    rewrite Hprep, Hr. reflexivity.
  - subst s2.
    assert (Hnd : NoDup (map FollowUp.id
                           (Db.follow_ups
                              (World.session
                                 (Processor.world (Processor.at_time t s1)))))).
    { cbn [Processor.at_time Processor.world World.session]. fold w1.
      rewrite Hrows1, map_map.
      rewrite (map_ext _ FollowUp.id
                 (fun r => settled_id str_format _ _ _ r)).
      exact Hdistinct. }
    rewrite (processor_rows str_format (Processor.at_time t s1) Hnd).
    cbn [Processor.at_time Processor.world World.now World.session
         World.reachable].
    fold w1. rewrite Hrows1, map_map. apply map_ext. intros r.
    destruct (due (World.now w) r) eqn:E.
    + unfold settled at 1.
      rewrite (settled_not_due str_format _ _ (World.now w) t r E).
      reflexivity.
    + unfold settled at 2. rewrite E.
      unfold settled, outcome. rewrite Hprep, Hr. reflexivity.
Qed.

Lemma processor_never_repeats_witness :
  let s := Processor.start SampleFollowUps.world in
  let t := combine Sample.monday (hours 21) in
  let w := Processor.world s in
  let rows := Db.follow_ups (World.session w) in
  let s1 := snd (process_pending_follow_ups SampleFollowUps.format s) in
  let s2 := snd (process_pending_follow_ups SampleFollowUps.format
                   (Processor.at_time t s1)) in
  filter (due t) (Db.follow_ups (World.session (Processor.world s1)))
  = filter (fun r => negb (due (World.now w) r) && due t r) rows
  /\ World.outbox (Processor.world s2)
     = (World.outbox (Processor.world s1)
        ++ flat_map (delivery SampleFollowUps.format (World.session w)
                       (World.reachable w))
             (filter (fun r => negb (due (World.now w) r) && due t r)
                     rows))%list
  /\ Db.follow_ups (World.session (Processor.world s2))
     = map (fun r =>
              if due (World.now w) r
              then settled SampleFollowUps.format (World.session w)
                     (World.reachable w) (World.now w) r
              else settled SampleFollowUps.format (World.session w)
                     (World.reachable w) t r)
           rows.
Proof.
  apply (processor_never_repeats SampleFollowUps.format
           (Processor.start SampleFollowUps.world)
           (combine Sample.monday (hours 21))).
  reflexivity.
Defined.

(** On the sample rows, a second run at 21:00: the row of 20:00 is sent,
    the rows of the first run keep their status, and the message of the
    first run is not sent again. *)
Example processor_sample_second_run :
  let s1 := snd (process_pending_follow_ups SampleFollowUps.format
                   (Processor.start SampleFollowUps.world)) in
  let s2 := snd (process_pending_follow_ups SampleFollowUps.format
                   (Processor.at_time (combine Sample.monday (hours 21)) s1)) in
  map FollowUp.status (Db.follow_ups (World.store (Processor.world s2)))
  = ["sent"; "failed"; "sent"; "sent"]
  /\ World.outbox (Processor.world s2)
     = [("+573004445566", "Hola, como sigue {pet_name}? tu mascota");
        ("+573004445566", "Hola, como sigue {pet_name}? tu mascota")]
  /\ Columns.sent_at (Processor.stored_columns s2)
     = [(40%N, World.now SampleFollowUps.world);
        (42%N, combine Sample.monday (hours 21))].
Proof. vm_compute. repeat split. Qed.

(** X22: a failure does not stop the run.  The messages handed to the
    gateway by a run are, in the order of the table, those of the due
    follow-ups whose message can be prepared and whose address the gateway
    accepts: each of them goes out, whatever happened to the follow-ups
    before it. *)
Theorem processor_deliveries
  (str_format : string -> string -> string -> exn + string)
  (s : Processor.t) :
  let w := Processor.world s in
  World.outbox
    (Processor.world (snd (process_pending_follow_ups str_format s)))
  = (World.outbox w
     ++ flat_map (delivery str_format (World.session w) (World.reachable w))
          (filter (due (World.now w)) (Db.follow_ups (World.session w))))%list.
Proof.
  intros w. rewrite process_pending_follow_ups_run. cbn [snd].
  apply (iterations_effect str_format (World.now w) _ s).
Qed.

(** X23: a conversation is opened before the send and stays when the send
    fails.  With nothing uncommitted before the run, the stored
    conversations after it are the former ones followed by one per due
    follow-up whose message could be prepared, reachable or not: of kind
    'follow_up', in COLLECT_STATUS, for the client's address and linked to
    the follow-up. *)
Theorem processor_opens_conversations
  (str_format : string -> string -> string -> exn + string)
  (s : Processor.t) :
  let w := Processor.world s in
  World.store w = World.session w ->
  map conversation_summary
    (Db.conversations
       (World.store
          (Processor.world (snd (process_pending_follow_ups str_format s)))))
  = (map conversation_summary (Db.conversations (World.store w))
     ++ flat_map
          (fun f =>
             map (fun x => (Some (fst x), snd x, COLLECT_STATUS, "follow_up"))
                 (opening str_format (World.session w) f))
          (filter (due (World.now w)) (Db.follow_ups (World.session w))))%list.
Proof.
  intros w Hclean. rewrite process_pending_follow_ups_run. cbn [snd].
  destruct (iterations_effect str_format (World.now w)
              (filter (due (World.now w)) (Db.follow_ups (World.session w))) s)
    as (_ & _ & _ & _ & Hstore & _ & Hconv & _).
  fold w in Hstore, Hconv |- *.
  rewrite (Hstore (or_introl Hclean)), Hconv, Hclean. reflexivity.
Qed.

Lemma processor_opens_conversations_witness :
  let w := World.fresh
             (Db.with_follow_ups (fun _ => SampleFollowUps.rows)
                Sample.database)
             (fun _ => false) (combine Sample.monday (hours 12)) 200 in
  map conversation_summary
    (Db.conversations
       (World.store
          (Processor.world
             (snd (process_pending_follow_ups SampleFollowUps.format
                     (Processor.start w))))))
  = (map conversation_summary (Db.conversations (World.store w))
     ++ flat_map
          (fun f =>
             map (fun x => (Some (fst x), snd x, COLLECT_STATUS, "follow_up"))
                 (opening SampleFollowUps.format (World.session w) f))
          (filter (due (World.now w)) (Db.follow_ups (World.session w))))%list.
Proof.
  intros w.
  apply (processor_opens_conversations SampleFollowUps.format
           (Processor.start w)).
  reflexivity.
Defined.

(** With a gateway that refuses everything, the due follow-up fails and
    its conversation is stored all the same. *)
Example processor_sample_offline :
  let w := World.fresh
             (Db.with_follow_ups (fun _ => SampleFollowUps.rows)
                Sample.database)
             (fun _ => false) (combine Sample.monday (hours 12)) 200 in
  let s' := snd (process_pending_follow_ups SampleFollowUps.format
                   (Processor.start w)) in
  map FollowUp.status (Db.follow_ups (World.store (Processor.world s')))
  = ["failed"; "failed"; "pending"; "sent"]
  /\ World.outbox (Processor.world s') = []
  /\ map conversation_summary
         (skipn 2 (Db.conversations (World.store (Processor.world s'))))
     = [(Some 40%N, "+573004445566", COLLECT_STATUS, "follow_up")].
Proof. vm_compute. repeat split. Qed.

(** ** Further properties: the state tables *)

(** X24: the table has no dead end and no way back to IDLE.  From every
    state a sequence of listed transitions leads to CLOSED, and no state
    lists IDLE or itself as a destination. *)
Theorem every_state_reaches_closed :
  (forall s, reaches s CLOSED)
  /\ (forall s d, In d (STATE_TRANSITIONS s) -> d <> IDLE /\ d <> s).
Proof.
  split.
  - assert (Hcompleted : reaches COMPLETED CLOSED)
      by (eapply reaches_step; [left; reflexivity | apply reaches_here]).
    assert (Hreminder : reaches REMINDER CLOSED)
      by (eapply reaches_step; [right; left; reflexivity | apply reaches_here]).
    assert (Hvia : forall s, In REMINDER (STATE_TRANSITIONS s) ->
                             reaches s CLOSED)
      by (intros s H; eapply reaches_step; [exact H | exact Hreminder]).
    intros []; try (apply Hvia; cbn; tauto).
    + eapply reaches_step; [left; reflexivity|].
      apply Hvia; cbn; tauto.
    + eapply reaches_step; [right; right; left; reflexivity|].
      apply reaches_here.
    + eapply reaches_step; [left; reflexivity | exact Hcompleted].
    + exact Hcompleted.
    + exact Hreminder.
    + apply reaches_here.
  - intros s d Hin. destruct s; cbn in Hin;
      repeat (destruct Hin as [<- | Hin]; [split; discriminate|]);
      destruct Hin.
Qed.

(** X25: the two tables of section 2.2 against the transition table.
    Every state with a timeout has a fallback, and the fallback is a listed
    transition of its state for every state but COLLECT_STATUS, whose
    fallback CLOSED is not among its listed destinations. *)
Theorem fallbacks_against_transitions (s d : State) :
  (STATE_TIMEOUT s <> None -> STATE_FALLBACK s <> None)
  /\ (STATE_FALLBACK s = Some d ->
      (In d (STATE_TRANSITIONS s) <-> s <> COLLECT_STATUS)).
Proof.
  split.
  - destruct s; cbn; congruence.
  - destruct s; cbn; intros [= <-]; split; intros H;
      try discriminate; try (cbn; tauto);
      try (exfalso; apply H; reflexivity);
      repeat (destruct H as [H | H]; [discriminate H|]); destruct H.
Qed.

Lemma fallbacks_against_transitions_witness :
  (STATE_TIMEOUT COLLECT_STATUS <> None -> STATE_FALLBACK COLLECT_STATUS <> None)
  /\ (STATE_FALLBACK COLLECT_STATUS = Some CLOSED ->
      (In CLOSED (STATE_TRANSITIONS COLLECT_STATUS)
       <-> COLLECT_STATUS <> COLLECT_STATUS)).
Proof.
  apply (fallbacks_against_transitions COLLECT_STATUS CLOSED).
Defined.
